(** * seasonals.py: the season lineup and watch-list utility

    A shallow embedding of [src/seasonals.py] and the properties of its
    date ordering, media filter, pagination, season inference, watch-list
    partition and summary printer.

    Python [int] is [Z], [str] is [string] (a byte string: UTF-8), [Optional]
    is [option], [list] is [list] and the [set] of media ids is a [gset Z].
    Code that prints, raises or recurses without a bound runs in the [Exec]
    monad below: the lines written to standard output, and how the call
    ended. *)

From Stdlib Require Import Ascii.
From stdpp Require Import base option list sets gmap strings pretty.

Open Scope Z_scope.

(** ** The data model (lines 16-98 and 178-191) *)

Record PageInfo := { hasNextPage : bool }.

Record Date := { year : option Z; month : option Z; day : option Z }.

Record Tag := { Tag_id : Z; name : string; category : string; rank : Z }.

Record Title := {
  romaji : string;
  english : option string;
  native : string;
  userPreferred : string
}.

Record MediaEdge := { relationType : string }.

Record MediaConnection := { edges : list MediaEdge }.

Record Media := {
  Media_id : Z;
  startDate : Date;
  isAdult : bool;
  episodes : option Z;
  isLicensed : bool;
  genres : list string;
  tags : list Tag;
  title : Title;
  relations : MediaConnection;
  format : option string
}.

Record AnimePage := { pageInfo : PageInfo; media : list Media }.

Inductive MediaSeason := WINTER | SPRING | SUMMER | FALL.

Record MediaEntry := {
  MediaEntry_id : Z;
  mediaId : Z;
  status : string;
  progress : Z;
  score : Z
}.

Record MediaList := { entries : list MediaEntry }.

Record MediaListCollection := { lists : list MediaList }.

(** [MediaSeason.value]: the label of a season in the summary's header. *)
Definition MediaSeason_value (s : MediaSeason) : string :=
  match s with
  | WINTER => "hivers"
  | SPRING => "printemps"
  | SUMMER => "été"
  | FALL => "automne"
  end.

(** ** [Date.__eq__] and [Date.__lt__] (lines 26-51) *)

Module Date.

Definition __eq__ (self other : Date) : bool :=
  bool_decide ((year self, month self, day self) = (year other, month other, day other)).

(** Each [if ...: return ...] of the source is one [match] or [if] here, in
    the source's order; falling off an [if] continues with the next one. *)
Definition __lt__ (self other : Date) : bool :=
  match year self with
  | None => true
  | Some self_year =>
    match year other with
    | None => false
    | Some other_year =>
      if self_year <? other_year then true else
      match month self with
      | None => true
      | Some self_month =>
        match month other with
        | None => false
        | Some other_month =>
          if self_month <? other_month then true else
          match day self with
          | None => true
          | Some self_day =>
            match day other with
            | None => false
            | Some other_day =>
              if self_day <? other_day then true else false
            end
          end
        end
      end
    end
  end.

End Date.

(** The order of Python tuples of three integers: what "lexicographically
    less" means for [(year, month, day)]. *)
Definition tuple_lt (a b : Z * Z * Z) : Prop :=
  let '(y1, m1, d1) := a in
  let '(y2, m2, d2) := b in
  y1 < y2 ∨ (y1 = y2 ∧ (m1 < m2 ∨ (m1 = m2 ∧ d1 < d2))).

(** A date whose three components are all present. *)
Definition full_date (y m d : Z) : Date :=
  {| year := Some y; month := Some m; day := Some d |}.

(** [a < b] as a relation on dates. *)
Definition Date_lt (a b : Date) : Prop := Date.__lt__ a b = true.

(** ** The per-media filter of [get_anime] (lines 160-170) *)

(** [x in (s1, ..., sn)] for an optional string [x]: [None] equals no string. *)
Definition in_tuple (x : option string) (t : list string) : bool :=
  match x with
  | Some s => existsb (String.eqb s) t
  | None => false
  end.

(** One iteration of the [for media in page_resp.media] loop: each
    [continue] leaves [medias] as it was, the last line appends. *)
Definition filter_step (medias : list Media) (m : Media) : list Media :=
  if in_tuple (format m) ["MOVIE"; "OVA"; "SPECIAL"; "MUSIC"] then medias
  else if isAdult m then medias
  else if existsb (λ rel, in_tuple (Some (relationType rel)) ["PREQUEL"; "SEQUEL"])
                  (edges (relations m)) then medias
  else medias ++ [m].

Definition filter_medias (page_media : list Media) : list Media :=
  fold_left filter_step page_media [].

(** The filter in the words of the specification: what is excluded. *)
Definition excluded (m : Media) : Prop :=
  format m ∈ [Some "MOVIE"; Some "OVA"; Some "SPECIAL"; Some "MUSIC"]
  ∨ isAdult m = true
  ∨ Exists (λ rel, relationType rel = "PREQUEL" ∨ relationType rel = "SEQUEL")
           (edges (relations m)).

#[export] Instance excluded_dec (m : Media) : Decision (excluded m).
Proof. unfold excluded. apply _. Defined.

(** ** [get_season] (lines 234-251) *)

(** What the code reads of [datetime.datetime.now()]. *)
Record datetime := { datetime_year : Z; datetime_month : Z; datetime_day : Z }.

(** [now] is the value of [datetime.datetime.now()] at the call. *)
Definition get_season (now : datetime) (year : option Z) (season : option MediaSeason)
  : Z * MediaSeason :=
  let date := now in
  let year :=
    match year with
    | None => if datetime_month date <? 12 then datetime_year date
              else datetime_year date + 1
    | Some y => y
    end in
  let season :=
    match season with
    | None =>
      if (datetime_month date <? 2) || (datetime_month date =? 12) then WINTER
      else if datetime_month date <? 5 then SPRING
      else if datetime_month date <? 8 then SUMMER
      else FALL
    | Some s => s
    end in
  (year, season).

(** ** The watched/remaining split of [user_progress] (lines 278-287) *)

Definition user_media_ids (user_list : list MediaEntry) : gset Z :=
  list_to_set (mediaId <$> user_list).

(** One iteration of [for media in medias] on the pair (watched, remaining). *)
Definition progress_step (ids : gset Z) (acc : list Media * list Media) (m : Media)
  : list Media * list Media :=
  if bool_decide (Media_id m ∈ ids) then (acc.1 ++ [m], acc.2)
  else (acc.1, acc.2 ++ [m]).

Definition watched_remaining (medias : list Media) (user_list : list MediaEntry)
  : list Media * list Media :=
  fold_left (progress_step (user_media_ids user_list)) medias ([], []).

(** ** Running Python: output, exceptions and unbounded recursion *)

(** The exceptions the two commands can end with. *)
Inductive exn :=
  | ConnectionError                (* requests.post got no response *)
  | JSONDecodeError                (* Response.json(): the body is not JSON *)
  | KeyError_or_TypeError          (* x[key] on a value without that key *)
  | ValidationError                (* pydantic's model_validate refused the value *)
  | HTTPError (status_code : Z).   (* Response.raise_for_status() *)

(** How a call ends: it returns, it raises, or the model's fuel ran out
    before it did either (the recursion was deeper than [fuel]). *)
Inductive outcome (A : Type) :=
  | Returned (a : A)
  | Raised (e : exn)
  | OutOfFuel.

Arguments Returned {A} a.
Arguments Raised {A} e.
Arguments OutOfFuel {A}.

(** A computation: the texts given to [print], in order (each is written
    followed by a newline), and how the computation ended. *)
Definition Exec (A : Type) : Type := list string * outcome A.

#[export] Instance Exec_ret : MRet Exec := λ A a, ([], Returned a).

#[export] Instance Exec_bind : MBind Exec := λ A B f m,
  match m.2 with
  | Returned a => (m.1 ++ (f a).1, (f a).2)
  | Raised e => (m.1, Raised e)
  | OutOfFuel => (m.1, OutOfFuel)
  end.

Definition print (s : string) : Exec unit := ([s], Returned tt).

Definition raise {A} (e : exn) : Exec A := ([], Raised e).

Definition out_of_fuel {A} : Exec A := ([], OutOfFuel).

(** A value that is there, or the exception raised when it is not. *)
Definition or_raise {A} (e : exn) (o : option A) : Exec A :=
  match o with
  | Some a => mret a
  | None => raise e
  end.

(** [for x in l: body(x)]. *)
Fixpoint for_ {A} (l : list A) (body : A → Exec unit) : Exec unit :=
  match l with
  | [] => mret tt
  | x :: l => body x;; for_ l body
  end.

(** The computation returned a value (it neither raised nor ran out of fuel). *)
Definition returns {A} (m : Exec A) : Prop := ∃ a, m.2 = Returned a.

(** ** Strings *)

Definition nl : string := String "010"%char "".

(** [s.replace(old, new)] for one-character [old] and [new]. *)
Fixpoint replace (old new : ascii) (s : string) : string :=
  match s with
  | EmptyString => EmptyString
  | String c s => String (if Ascii.eqb c old then new else c) (replace old new s)
  end.

(** [x or default] for an optional string: [None] and the empty string are falsy. *)
Definition or_else (x : option string) (default : string) : string :=
  match x with
  | Some (String c s) => String c s
  | _ => default
  end.

(** [toolz.groupby(key, seq)]: a dict from each key to the items that have
    it, in the order of [seq]; a dict lists its keys in the order they were
    first inserted. *)
Fixpoint dict_append {K A} `{EqDecision K} (d : list (K * list A)) (k : K) (x : A)
  : list (K * list A) :=
  match d with
  | [] => [(k, [x])]
  | (k', xs) :: d => if decide (k = k') then (k', xs ++ [x]) :: d
                     else (k', xs) :: dict_append d k x
  end.

Definition groupby {K A} `{EqDecision K} (key : A → K) (seq : list A) : list (K * list A) :=
  fold_left (λ d x, dict_append d (key x) x) seq [].

(** ** The API client and the two commands *)

Definition MediaSeason_name (s : MediaSeason) : string :=
  match s with
  | WINTER => "WINTER"
  | SPRING => "SPRING"
  | SUMMER => "SUMMER"
  | FALL => "FALL"
  end.

(** The [variables] of the two GraphQL queries ([season_query], [user_query]). *)
Inductive Request :=
  | SeasonQuery (page : Z) (season : string) (year : Z)
  | UserQuery (username : string) (type : string).

Module Client.

Section Runtime.

(** The libraries and the world the program runs in: decoded JSON values
    with [str()] and subscripting, pydantic's validation of the two models,
    [sorted] with its [<], the remote API and the clock. *)
Variable Json : Type.
Variable str : Json → string.
Variable getitem : Json → string → option Json.
Variable AnimePage_model_validate : Json → option AnimePage.
Variable MediaListCollection_model_validate : Json → option MediaListCollection.
Variable sorted : ∀ A : Type, (A → A → bool) → list A → list A.

(** A [requests.Response]: its status, and what [.json()] returns ([None]
    when the body is not JSON and [.json()] raises). *)
Record Response := { status_code : Z; json : option Json }.

(** [requests.post(AL_URL, json=data)]: the API's answer to each request of
    a run, [None] when there is none. A run asks for each page once. *)
Variable post : Request → option Response.

Variable now : datetime.

Definition requests_post (data : Request) : Exec Response :=
  or_raise ConnectionError (post data).

Definition Response_json (r : Response) : Exec Json :=
  or_raise JSONDecodeError (json r).

Definition subscript (x : Json) (key : string) : Exec Json :=
  or_raise KeyError_or_TypeError (getitem x key).

(** [Response.raise_for_status()]: requests raises [HTTPError] for a status
    from 400 to 599 and returns for every other. *)
Definition raise_for_status (r : Response) : Exec unit :=
  if (400 <=? status_code r) && (status_code r <? 600)
  then raise (HTTPError (status_code r))
  else mret tt.

(** Lines 146-158 of [get_anime]: the request for one page and its decoding. *)
Definition fetch_page (season : MediaSeason) (year page : Z) : Exec AnimePage :=
  resp ← requests_post (SeasonQuery page (MediaSeason_name season) year);
  body ← Response_json resp;
  data ← subscript body "data";
  Page ← subscript data "Page";
  or_raise ValidationError (AnimePage_model_validate Page).

(** [get_anime(season, year, page)]; a call that recurses deeper than [fuel]
    is [OutOfFuel]. *)
Fixpoint get_anime (fuel : nat) (season : MediaSeason) (year page : Z)
  : Exec (list Media) :=
  match fuel with
  | O => out_of_fuel
  | S fuel =>
    page_resp ← fetch_page season year page;
    let medias := filter_medias (media page_resp) in
    if hasNextPage (pageInfo page_resp) then
      rest ← get_anime fuel season year (page + 1);
      mret (medias ++ rest)
    else mret medias
  end.

(** The API serves [pages] from page [page] on: page [page + i] is the [i]-th of
    [pages], and only the last of them reports no next page. *)
Definition served (season : MediaSeason) (year page : Z) (pages : list AnimePage) : Prop :=
  ∀ (i : nat) p, pages !! i = Some p →
    fetch_page season year (page + Z.of_nat i) = mret p
    ∧ hasNextPage (pageInfo p) = bool_decide (S i < length pages)%nat.

Definition get_userlist (username : string) : Exec (list MediaEntry) :=
  req ← requests_post (UserQuery username "ANIME");
  (if negb (status_code req =? 200) then
     body ← Response_json req;
     print (str body);;
     raise_for_status req
   else mret tt);;
  body ← Response_json req;
  data ← subscript body "data";
  collection ← subscript data "MediaListCollection";
  user_list ← or_raise ValidationError (MediaListCollection_model_validate collection);
  mret (concat (entries <$> lists user_list)).

(** The sub-header of a format group (line 263). *)
Definition sub_header (format : option string) : string :=
  replace "_"%char " "%char (nl +:+ "### " +:+ or_else format "Unknown" +:+ nl).

(** The checklist line of a media (lines 265-266). *)
Definition checklist_line (m : Media) : string :=
  "- [ ] [{AL}](https://anilist.co/anime/" +:+ pretty (Media_id m) +:+ ") "
  +:+ userPreferred (title m).

(** The header of the summary (line 260). *)
Definition summary_header (year : Z) (season : MediaSeason) : string :=
  "# Saisonniers " +:+ MediaSeason_value season +:+ " " +:+ pretty year.

Definition md_summary (fuel : nat) (year : option Z) (season : option MediaSeason)
  : Exec unit :=
  let '(year, season) := get_season now year season in
  medias ← get_anime fuel season year 1;
  let medias_format := groupby format medias in
  print (summary_header year season);;
  for_ medias_format (λ '(format, format_medias),
    print (sub_header format);;
    for_ (sorted Media (λ a b, Date.__lt__ (startDate a) (startDate b)) format_medias)
         (λ media, print (checklist_line media))).

Definition user_progress (fuel : nat) (username : string)
    (year : option Z) (season : option MediaSeason) : Exec unit :=
  let '(year, season) := get_season now year season in
  medias ← get_anime fuel season year 1;
  user_list ← get_userlist username;
  let '(watched, remaining) := watched_remaining medias user_list in
  print "Watched:";;
  for_ watched (λ w, print (userPreferred (title w)));;
  print (nl +:+ "Remaining:");;
  for_ remaining (λ r,
    print (userPreferred (title r) +:+ " " +:+ "https://anilist.co/anime/"
           +:+ pretty (Media_id r))).

End Runtime.

Arguments Build_Response {Json} status_code json.
Arguments status_code {Json} r.
Arguments json {Json} r.
Arguments raise_for_status {Json} r.

End Client.

(** The statuses the specification calls successful. *)
Definition is_2xx (status : Z) : bool := (200 <=? status) && (status <? 300).

(** ** A sample world: two pages of a season and one user's list *)

Module Sample.

(** Decoded bodies: an object with one key, a string, or a value that
    validates as a page or as a list collection. *)
Inductive json :=
  | JString (s : string)
  | JObject (key : string) (value : json)
  | JPage (p : AnimePage)
  | JCollection (c : MediaListCollection).

Fixpoint str (j : json) : string :=
  match j with
  | JString s => "'" +:+ s +:+ "'"
  | JObject key value => "{'" +:+ key +:+ "': " +:+ str value +:+ "}"
  | JPage _ => "{'pageInfo': ..., 'media': ...}"
  | JCollection _ => "{'lists': ...}"
  end.

Definition getitem (j : json) (key : string) : option json :=
  match j with
  | JObject k value => if String.eqb k key then Some value else None
  | _ => None
  end.

Definition AnimePage_model_validate (j : json) : option AnimePage :=
  match j with JPage p => Some p | _ => None end.

Definition MediaListCollection_model_validate (j : json) : option MediaListCollection :=
  match j with JCollection c => Some c | _ => None end.

Fixpoint insert {A} (lt : A → A → bool) (x : A) (l : list A) : list A :=
  match l with
  | [] => [x]
  | y :: l' => if lt x y then x :: l else y :: insert lt x l'
  end.

Definition sorted (A : Type) (lt : A → A → bool) (l : list A) : list A :=
  foldr (insert lt) [] l.

Definition a_media (id : Z) (name : string) (fmt : option string) (adult : bool)
    (rels : list string) (start : Date) : Media :=
  {| Media_id := id; startDate := start; isAdult := adult; episodes := Some 12;
     isLicensed := true; genres := []; tags := [];
     title := {| romaji := name; english := None; native := name; userPreferred := name |};
     relations := {| edges := (λ r, {| relationType := r |}) <$> rels |};
     format := fmt |}.

Definition m1 : Media := a_media 1 "Sousou_no Frieren" (Some "TV") false [] (full_date 2025 1 10).
Definition m2 : Media := a_media 2 "Eiga" (Some "MOVIE") false [] (full_date 2025 1 3).
Definition m3 : Media := a_media 3 "Mijikai" (Some "TV_SHORT") false ["ADAPTATION"] (full_date 2025 1 5).
Definition m4 : Media := a_media 4 "Otona" (Some "TV") true [] (full_date 2025 1 7).
Definition m5 : Media := a_media 5 "Nazo" None false []
  {| year := Some 2025; month := None; day := None |}.
Definition m6 : Media := a_media 6 "Zoku" (Some "TV") false ["SEQUEL"] (full_date 2025 1 4).

Definition page1 : AnimePage :=
  {| pageInfo := {| hasNextPage := true |}; media := [m1; m2; m3; m4] |}.
Definition page2 : AnimePage :=
  {| pageInfo := {| hasNextPage := false |}; media := [m5; m6] |}.

Definition entry (id media_id : Z) : MediaEntry :=
  {| MediaEntry_id := id; mediaId := media_id; status := "CURRENT"; progress := 3; score := 0 |}.

Definition collection : MediaListCollection :=
  {| lists := [ {| entries := [entry 70 3] |}; {| entries := [entry 71 9] |} ] |}.

Definition ok (data : json) : Client.Response json :=
  {| Client.status_code := 200; Client.json := Some (JObject "data" data) |}.

(** The API serving the season in two pages and the user's list. *)
Definition post (data : Request) : option (Client.Response json) :=
  match data with
  | SeasonQuery 1 _ _ => Some (ok (JObject "Page" (JPage page1)))
  | SeasonQuery 2 _ _ => Some (ok (JObject "Page" (JPage page2)))
  | SeasonQuery _ _ _ => None
  | UserQuery _ _ => Some (ok (JObject "MediaListCollection" (JCollection collection)))
  end.

(** An API on which every page reports a next one. *)
Definition post_endless (data : Request) : option (Client.Response json) :=
  Some (ok (JObject "Page" (JPage page1))).

(** An API that does not know the user. *)
Definition not_found : Client.Response json :=
  {| Client.status_code := 404;
     Client.json := Some (JObject "errors" (JString "User not found")) |}.

Definition post_not_found (data : Request) : option (Client.Response json) :=
  Some not_found.

(** An API answering 300 (Multiple Choices, which requests does not
    follow) with the list in the body. *)
Definition multiple_choices : Client.Response json :=
  {| Client.status_code := 300;
     Client.json := Some (JObject "data" (JObject "MediaListCollection" (JCollection collection))) |}.

Definition post_multiple_choices (data : Request) : option (Client.Response json) :=
  Some multiple_choices.

Definition now : datetime :=
  {| datetime_year := 2024; datetime_month := 12; datetime_day := 24 |}.

End Sample.

(** ** More sample worlds: an outage, error statuses, a one-media season *)

Module Cases.

(** The API answers page 1 and is unreachable afterwards. *)
Definition post_page2_down (data : Request) : option (Client.Response Sample.json) :=
  match data with
  | SeasonQuery 1 _ _ => Sample.post data
  | SeasonQuery _ _ _ => None
  | UserQuery _ _ => Sample.post data
  end.

(** The API of [Sample], with the status 500 on every answer. *)
Definition post_500 (data : Request) : option (Client.Response Sample.json) :=
  (λ r, {| Client.status_code := 500; Client.json := Client.json r |}) <$> Sample.post data.

(** A season of one media without format. *)
Definition post_single (data : Request) : option (Client.Response Sample.json) :=
  match data with
  | SeasonQuery _ _ _ =>
    Some (Sample.ok (Sample.JObject "Page" (Sample.JPage
      {| pageInfo := {| hasNextPage := false |}; media := [Sample.m5] |})))
  | UserQuery _ _ => Sample.post data
  end.

(** The API of [Sample], with a third page it would serve if asked. *)
Definition post_more_pages (data : Request) : option (Client.Response Sample.json) :=
  match data with
  | SeasonQuery 3 _ _ => Some (Sample.ok (Sample.JObject "Page" (Sample.JPage Sample.page1)))
  | _ => Sample.post data
  end.

(** The season of [Sample], for a user the API does not know. *)
Definition post_unknown_user (data : Request) : option (Client.Response Sample.json) :=
  match data with
  | SeasonQuery _ _ _ => Sample.post data
  | UserQuery _ _ => Some Sample.not_found
  end.

End Cases.

(** * Properties *)

(** ** The date ordering *)

(** On dates with all three components, [__lt__] is decided by the first
    component, in the order year, month, day, on which the left date is
    smaller; a larger component on the left does not stop the comparison. *)
Lemma Date_lt_full (y1 m1 d1 y2 m2 d2 : Z) :
  Date.__lt__ (full_date y1 m1 d1) (full_date y2 m2 d2) = true
  ↔ y1 < y2 ∨ m1 < m2 ∨ d1 < d2.
Proof.
  unfold Date.__lt__; simpl.
  destruct (Z.ltb_spec y1 y2), (Z.ltb_spec m1 m2), (Z.ltb_spec d1 d2);
    split; intros; try done; try lia; auto.
Qed.

(** Whatever the tuple order puts first, [__lt__] puts first too. *)
Lemma tuple_lt_Date_lt (y1 m1 d1 y2 m2 d2 : Z) :
  tuple_lt (y1, m1, d1) (y2, m2, d2) →
  Date_lt (full_date y1 m1 d1) (full_date y2 m2 d2).
Proof.
  unfold Date_lt. rewrite Date_lt_full. simpl. intuition.
Qed.

(** C1, at the failing input: a show starting 2025-01-05 is below one
    starting 2024-12-28 for [__lt__] (the month decides although the year is
    larger), while the triple (2025, 1, 5) is not below (2024, 12, 28)
    lexicographically; the two dates are below each other. *)
Lemma Date_lt_not_lexicographic :
  Date.__lt__ (full_date 2025 1 5) (full_date 2024 12 28) = true
  ∧ ¬ tuple_lt (2025, 1, 5) (2024, 12, 28)
  ∧ Date.__lt__ (full_date 2024 12 28) (full_date 2025 1 5) = true.
Proof.
  split; [reflexivity | split; [| reflexivity]].
  unfold tuple_lt. lia.
Qed.

(** C8: a missing component sorts first. A date without a year is below
    every date with one, and not above it; with equal years, a date without
    a month is below every date with one; with equal years and months, a
    date without a day is below every date with one. *)
Theorem Date_lt_missing_first (A B : Date) :
  (year A = None → is_Some (year B) → Date_lt A B ∧ ¬ Date_lt B A)
  ∧ (is_Some (year A) → year A = year B →
     month A = None → is_Some (month B) → Date_lt A B)
  ∧ (is_Some (year A) → year A = year B →
     is_Some (month A) → month A = month B →
     day A = None → is_Some (day B) → Date_lt A B).
Proof.
  unfold Date_lt, Date.__lt__.
  split; [| split].
  - intros HA [y HB]. rewrite HA, HB. split; [reflexivity | discriminate].
  - intros [y HA] Hy Hm _. rewrite <- Hy, HA, Hm.
    by destruct (y <? y).
  - intros [y HA] Hy [m Hm] Hmm Hd _. rewrite <- Hy, HA, <- Hmm, Hm, Hd.
    by destruct (y <? y), (m <? m).
Qed.

(** C9: [__lt__] is not a strict order. A date without a year is below
    itself, and so is a date with a year and without a month; hence the
    relation is neither irreflexive nor asymmetric. *)
Theorem Date_lt_not_strict :
  (∀ d, year d = None → Date_lt d d)
  ∧ (∀ d, is_Some (year d) → month d = None → Date_lt d d)
  ∧ ¬ Irreflexive Date_lt
  ∧ ¬ Asymmetric Date_lt
  ∧ ¬ StrictOrder Date_lt.
Proof.
  assert (H1 : ∀ d, year d = None → Date_lt d d).
  { intros d H. unfold Date_lt, Date.__lt__. by rewrite H. }
  assert (H2 : ∀ d, is_Some (year d) → month d = None → Date_lt d d).
  { intros d [y Hy] Hm. unfold Date_lt, Date.__lt__. rewrite Hy, Hm.
    by destruct (y <? y). }
  pose (d0 := {| year := None; month := None; day := None |}).
  assert (H0 : Date_lt d0 d0) by (by apply H1).
  repeat split; try assumption.
  - intros Hirr. exact (Hirr d0 H0).
  - intros Hasym. exact (Hasym d0 d0 H0 H0).
  - intros [Hirr _]. exact (Hirr d0 H0).
Qed.

(** ** The per-media filter *)

Lemma in_tuple_elem_of (x : option string) (t : list string) :
  in_tuple x t = true ↔ x ∈ (Some <$> t).
Proof.
  destruct x as [s |]; simpl.
  - rewrite existsb_exists, list_elem_of_fmap. split.
    + intros (s' & Hin & Heq). apply String.eqb_eq in Heq. subst s'.
      exists s. split; [done | by apply list_elem_of_In].
    + intros (s' & [= <-] & Hin). exists s.
      split; [by apply list_elem_of_In | apply String.eqb_refl].
  - split; [done |]. rewrite list_elem_of_fmap. by intros (? & ? & ?).
Qed.

Lemma has_prequel_or_sequel (rels : list MediaEdge) :
  existsb (λ rel, in_tuple (Some (relationType rel)) ["PREQUEL"; "SEQUEL"]) rels = true
  ↔ Exists (λ rel, relationType rel = "PREQUEL" ∨ relationType rel = "SEQUEL") rels.
Proof.
  rewrite existsb_exists, Exists_exists. split.
  - intros (rel & Hin & H). exists rel. split; [by apply list_elem_of_In |].
    apply in_tuple_elem_of in H. simpl in H.
    apply elem_of_cons in H as [[= ->] | H]; [by left |].
    apply elem_of_cons in H as [[= ->] | H]; [by right |].
    by apply elem_of_nil in H.
  - intros (rel & Hin & H). exists rel. split; [by apply list_elem_of_In |].
    apply in_tuple_elem_of. simpl. destruct H as [-> | ->]; repeat constructor.
Qed.

(** One step of the loop appends the media unless it is excluded. *)
Lemma filter_step_excluded (medias : list Media) (m : Media) :
  filter_step medias m = medias ++ (if decide (¬ excluded m) then [m] else []).
Proof.
  unfold filter_step.
  destruct (in_tuple (format m) _) eqn:Hf.
  { apply in_tuple_elem_of in Hf. rewrite decide_False, app_nil_r; [done |].
    intros H. apply H. by left. }
  destruct (isAdult m) eqn:Ha.
  { rewrite decide_False, app_nil_r; [done |].
    intros H. apply H. right. by left. }
  destruct (existsb _ _) eqn:Hr.
  { apply has_prequel_or_sequel in Hr. rewrite decide_False, app_nil_r; [done |].
    intros H. apply H. right. by right. }
  rewrite decide_True; [done |].
  intros [H | [H | H]].
  - apply (in_tuple_elem_of _ ["MOVIE"; "OVA"; "SPECIAL"; "MUSIC"]) in H. congruence.
  - congruence.
  - apply has_prequel_or_sequel in H. congruence.
Qed.

Lemma fold_filter_step (page medias : list Media) :
  fold_left filter_step page medias = medias ++ filter (λ m, ¬ excluded m) page.
Proof.
  revert medias. induction page as [| m page IH]; intros medias; simpl.
  - by rewrite app_nil_r.
  - rewrite IH, filter_step_excluded, filter_cons.
    destruct (decide (¬ excluded m)); by rewrite <- app_assoc.
Qed.

(** C3: the filter keeps exactly the media that are not excluded (format
    MOVIE, OVA, SPECIAL or MUSIC; adult; a PREQUEL or SEQUEL relation), in
    the order of the page. *)
Theorem filter_medias_excluded (page : list Media) :
  filter_medias page = filter (λ m, ¬ excluded m) page
  ∧ (∀ m, m ∈ filter_medias page ↔ m ∈ page ∧ ¬ excluded m)
  ∧ filter_medias page `sublist_of` page.
Proof.
  assert (H : filter_medias page = filter (λ m, ¬ excluded m) page).
  { unfold filter_medias. by rewrite fold_filter_step. }
  rewrite H. split; [done | split].
  - intros m. rewrite list_elem_of_filter. tauto.
  - apply sublist_filter.
Qed.

(** ** Season inference *)

(** C4: without arguments, December is the winter of the next year, January
    the winter of this year, February to April spring, May to July summer,
    August to November fall; a given year or season is returned as it is,
    and the other component is inferred as if neither were given. *)
Theorem get_season_inference (now : datetime) :
  let y := datetime_year now in
  let m := datetime_month now in
  (m = 12 → get_season now None None = (y + 1, WINTER))
  ∧ (m = 1 → get_season now None None = (y, WINTER))
  ∧ (2 ≤ m ≤ 4 → get_season now None None = (y, SPRING))
  ∧ (5 ≤ m ≤ 7 → get_season now None None = (y, SUMMER))
  ∧ (8 ≤ m ≤ 11 → get_season now None None = (y, FALL))
  ∧ (∀ year season, get_season now (Some year) (Some season) = (year, season))
  ∧ (∀ year, get_season now (Some year) None = (year, (get_season now None None).2))
  ∧ (∀ season, get_season now None (Some season) = ((get_season now None None).1, season)).
Proof.
  unfold get_season. simpl.
  repeat split; try done; intros H;
    repeat match goal with
    | |- context [?a <? ?b] => destruct (Z.ltb_spec a b); try lia
    | |- context [?a =? ?b] => destruct (Z.eqb_spec a b); try lia
    end; simpl; try done.
Qed.

(** ** The watched/remaining split *)

Lemma elem_of_user_media_ids (user_list : list MediaEntry) (i : Z) :
  i ∈ user_media_ids user_list ↔ i ∈ (mediaId <$> user_list).
Proof. unfold user_media_ids. apply elem_of_list_to_set. Qed.

Lemma fold_progress_step (ids : gset Z) (medias watched remaining : list Media) :
  fold_left (progress_step ids) medias (watched, remaining)
  = (watched ++ filter (λ m, Media_id m ∈ ids) medias,
     remaining ++ filter (λ m, Media_id m ∉ ids) medias).
Proof.
  revert watched remaining.
  induction medias as [| m medias IH]; intros watched remaining; simpl.
  - by rewrite !app_nil_r.
  - unfold progress_step at 2. simpl. rewrite !filter_cons.
    case_bool_decide as Hm.
    + rewrite IH, decide_True, decide_False by auto. by rewrite <- app_assoc.
    + rewrite IH, decide_False, decide_True by auto. by rewrite <- app_assoc.
Qed.

(** C7: [watched] is the media whose id is among the entries' [mediaId]s,
    [remaining] the others, both in the order of [medias]; every media is
    in exactly one of the two, and together they are all of [medias]. *)
Theorem watched_remaining_partition (medias : list Media) (user_list : list MediaEntry) :
  let ids := mediaId <$> user_list in
  let watched := (watched_remaining medias user_list).1 in
  let remaining := (watched_remaining medias user_list).2 in
  watched = filter (λ m, Media_id m ∈ ids) medias
  ∧ remaining = filter (λ m, Media_id m ∉ ids) medias
  ∧ watched `sublist_of` medias
  ∧ remaining `sublist_of` medias
  ∧ (∀ m, m ∈ medias →
       (m ∈ watched ∧ (m ∉ remaining)) ∨ ((m ∉ watched) ∧ m ∈ remaining))
  ∧ medias ≡ₚ watched ++ remaining.
Proof.
  intros ids watched remaining.
  assert (Hw : watched = filter (λ m, Media_id m ∈ ids) medias).
  { unfold watched, watched_remaining. rewrite fold_progress_step. simpl.
    apply list_filter_iff. intros m. apply elem_of_user_media_ids. }
  assert (Hr : remaining = filter (λ m, Media_id m ∉ ids) medias).
  { unfold remaining, watched_remaining. rewrite fold_progress_step. simpl.
    apply list_filter_iff. intros m. by rewrite elem_of_user_media_ids. }
  rewrite Hw, Hr. repeat split.
  - apply sublist_filter.
  - apply sublist_filter.
  - intros m Hm. rewrite !list_elem_of_filter.
    destruct (decide (Media_id m ∈ ids)); [left | right]; tauto.
  - clear. induction medias as [| m medias IH]; [done |].
    rewrite !filter_cons. destruct (decide (Media_id m ∈ ids)).
    + rewrite decide_False by auto. simpl. by f_equiv.
    + rewrite decide_True by auto. rewrite <- Permutation_middle. by f_equiv.
Qed.

(** ** Computations *)

Lemma Exec_bind_ret {A B} (a : A) (f : A → Exec B) : mret a ≫= f = f a.
Proof. unfold mbind, Exec_bind, mret, Exec_ret. simpl. by destruct (f a). Qed.

Lemma Exec_bind_print {B} (s : string) (m : Exec B) : (print s;; m) = (s :: m.1, m.2).
Proof. reflexivity. Qed.

(** A loop whose body only prints, prints the bodies' lines in order. *)
Lemma for_prints {A} (l : list A) (body : A → Exec unit) (lines : A → list string) :
  (∀ x, body x = (lines x, Returned tt)) →
  for_ l body = (concat (lines <$> l), Returned tt).
Proof.
  intros Hbody. induction l as [| x l IH]; [done |].
  simpl. rewrite IH, Hbody. reflexivity.
Qed.

Lemma for_print_each {A} (l : list A) (line : A → string) :
  for_ l (λ x, print (line x)) = (line <$> l, Returned tt).
Proof.
  induction l as [| x l IH]; [done |].
  simpl. by rewrite IH.
Qed.

(** ** Strings *)

Lemma replace_app (old new : ascii) (s t : string) :
  replace old new (s +:+ t) = replace old new s +:+ replace old new t.
Proof. induction s as [| c s IH]; simpl; [done | by rewrite IH]. Qed.

Lemma replace_get (old new : ascii) (s : string) (n : nat) :
  String.get n (replace old new s)
  = (λ c, if decide (c = old) then new else c) <$> String.get n s.
Proof.
  revert n. induction s as [| c s IH]; intros n; [done |].
  destruct n as [| n]; simpl; [| apply IH].
  destruct (Ascii.eqb_spec c old); [by rewrite decide_True | by rewrite decide_False].
Qed.

Section ClientProperties.

Variable Json : Type.
Variable str : Json → string.
Variable getitem : Json → string → option Json.
Variable AnimePage_model_validate : Json → option AnimePage.
Variable MediaListCollection_model_validate : Json → option MediaListCollection.
Variable sorted : ∀ A : Type, (A → A → bool) → list A → list A.
Variable post : Request → option (Client.Response Json).
Variable now : datetime.

Abbreviation fetch_page := (Client.fetch_page Json getitem AnimePage_model_validate post).
Abbreviation get_anime := (Client.get_anime Json getitem AnimePage_model_validate post).
Abbreviation served := (Client.served Json getitem AnimePage_model_validate post).
Abbreviation get_userlist :=
  (Client.get_userlist Json str getitem MediaListCollection_model_validate post).
Abbreviation md_summary :=
  (Client.md_summary Json getitem AnimePage_model_validate sorted post now).

(** *** Pagination *)

Lemma get_anime_last (fuel : nat) (season : MediaSeason) (year page : Z) (p : AnimePage) :
  fetch_page season year page = mret p →
  hasNextPage (pageInfo p) = false →
  get_anime (S fuel) season year page = mret (filter_medias (media p)).
Proof. intros Hp Hlast. simpl. rewrite Hp, Exec_bind_ret. by rewrite Hlast. Qed.

Lemma get_anime_next (fuel : nat) (season : MediaSeason) (year page : Z) (p : AnimePage) :
  fetch_page season year page = mret p →
  hasNextPage (pageInfo p) = true →
  get_anime (S fuel) season year page
  = rest ← get_anime fuel season year (page + 1); mret (filter_medias (media p) ++ rest).
Proof. intros Hp Hnext. simpl. rewrite Hp, Exec_bind_ret. by rewrite Hnext. Qed.

Lemma served_tail season year page p pages :
  served season year page (p :: pages) → served season year (page + 1) pages.
Proof.
  intros H i q Hq. destruct (H (S i) q Hq) as [Hf Hn]. split.
  - rewrite <- Hf. f_equal. lia.
  - rewrite Hn. apply bool_decide_ext. simpl. lia.
Qed.

Lemma get_anime_served (pages : list AnimePage) :
  ∀ (fuel : nat) season year page,
    pages ≠ [] →
    served season year page pages →
    (length pages ≤ fuel)%nat →
    get_anime fuel season year page = mret (concat (filter_medias ∘ media <$> pages)).
Proof.
  induction pages as [| p pages IH]; intros fuel season year page Hne Hs Hfuel; [done |].
  destruct fuel as [| fuel]; [simpl in Hfuel; lia |].
  destruct (Hs 0%nat p eq_refl) as [Hp Hn]. rewrite Z.add_0_r in Hp.
  destruct pages as [| q pages].
  - rewrite (get_anime_last _ _ _ _ p Hp); [| by rewrite Hn].
    simpl. by rewrite app_nil_r.
  - rewrite (get_anime_next _ _ _ _ p Hp); [| by rewrite Hn; apply bool_decide_eq_true; simpl; lia].
    rewrite (IH fuel season year (page + 1)).
    + by rewrite Exec_bind_ret.
    + done.
    + by eapply served_tail.
    + simpl in *. lia.
Qed.

(** A call that finds a last page within [n] further pages returns, with
    any fuel above [n]. *)
Lemma get_anime_returns (n : nat) :
  ∀ season year page,
    (∀ k : nat, (k ≤ n)%nat → ∃ p, fetch_page season year (page + Z.of_nat k) = mret p) →
    (∃ p, fetch_page season year (page + Z.of_nat n) = mret p ∧ hasNextPage (pageInfo p) = false) →
    ∃ medias, ∀ fuel, (n < fuel)%nat → get_anime fuel season year page = mret medias.
Proof.
  induction n as [| n IH]; intros season year page Hall (pn & Hpn & Hlast).
  - rewrite Z.add_0_r in Hpn. exists (filter_medias (media pn)).
    intros [| fuel] Hfuel; [lia |]. by apply get_anime_last.
  - destruct (Hall 0%nat ltac:(lia)) as [p Hp]. rewrite Z.add_0_r in Hp.
    destruct (hasNextPage (pageInfo p)) eqn:Hnext.
    + destruct (IH season year (page + 1)) as [rest Hrest].
      * intros k Hk. destruct (Hall (S k) ltac:(lia)) as [q Hq].
        exists q. rewrite <- Hq. f_equal. lia.
      * exists pn. split; [| done]. rewrite <- Hpn. f_equal. lia.
      * exists (filter_medias (media p) ++ rest).
        intros [| fuel] Hfuel; [lia |].
        rewrite (get_anime_next _ _ _ _ p Hp Hnext), Hrest by lia.
        by rewrite Exec_bind_ret.
    + exists (filter_medias (media p)).
      intros [| fuel] Hfuel; [lia |]. by apply get_anime_last.
Qed.

(** While every page reports a next one, no amount of fuel is enough. *)
Lemma get_anime_unbounded (fuel : nat) :
  ∀ season year page,
    (∀ k : nat, ∃ p, fetch_page season year (page + Z.of_nat k) = mret p
                     ∧ hasNextPage (pageInfo p) = true) →
    get_anime fuel season year page = out_of_fuel.
Proof.
  induction fuel as [| fuel IH]; intros season year page Hall; [done |].
  destruct (Hall 0%nat) as (p & Hp & Hnext). rewrite Z.add_0_r in Hp.
  rewrite (get_anime_next _ _ _ _ p Hp Hnext), IH; [done |].
  intros k. destruct (Hall (S k)) as (q & Hq & Hqn).
  exists q. split; [| done]. rewrite <- Hq. f_equal. lia.
Qed.

(** C5: when the API serves the pages [pages], each but the last reporting
    a next page, [get_anime] returns the filtered media of the pages in page
    order, each page's in its own order. In particular, two pages with two
    and one surviving media give those three media, page 1's first. *)
Theorem get_anime_concatenates (season : MediaSeason) (year : Z) :
  (∀ pages : list AnimePage,
     pages ≠ [] →
     served season year 1 pages →
     ∀ fuel, (length pages ≤ fuel)%nat →
       get_anime fuel season year 1
       = mret (concat (filter_medias ∘ media <$> pages)))
  ∧ (∀ (p1 p2 : AnimePage) (a b c : Media),
       fetch_page season year 1 = mret p1 →
       fetch_page season year 2 = mret p2 →
       hasNextPage (pageInfo p1) = true →
       hasNextPage (pageInfo p2) = false →
       filter_medias (media p1) = [a; b] →
       filter_medias (media p2) = [c] →
       ∀ fuel, (2 ≤ fuel)%nat → get_anime fuel season year 1 = mret [a; b; c]).
Proof.
  split.
  - intros pages Hne Hs fuel Hfuel. by apply get_anime_served.
  - intros p1 p2 a b c H1 H2 Hn1 Hn2 Hf1 Hf2 fuel Hfuel.
    rewrite (get_anime_served [p1; p2]); [| done | | done].
    + simpl. by rewrite Hf1, Hf2.
    + intros [| [| i]] p Hp; simplify_eq/=; [by rewrite Hn1 | by rewrite Hn2].
Qed.

(** C6: if the pages up to some page decode and that page reports no next
    page, [get_anime] returns, the same list with any fuel above that number
    of pages; and if every page reports a next one, it never returns,
    whatever the fuel: nothing bounds the number of pages. *)
Theorem get_anime_terminates (season : MediaSeason) (year : Z) :
  (∀ last : nat,
     (∀ k : nat, (k ≤ last)%nat →
        ∃ p, fetch_page season year (1 + Z.of_nat k) = mret p) →
     (∃ p, fetch_page season year (1 + Z.of_nat last) = mret p
           ∧ hasNextPage (pageInfo p) = false) →
     ∃ medias, ∀ fuel, (last < fuel)%nat →
       get_anime fuel season year 1 = mret medias)
  ∧ ((∀ k : nat, ∃ p, fetch_page season year (1 + Z.of_nat k) = mret p
                      ∧ hasNextPage (pageInfo p) = true) →
     ∀ fuel, get_anime fuel season year 1 = out_of_fuel).
Proof.
  split.
  - intros last Hall Hlast. by apply (get_anime_returns last).
  - intros Hall fuel. by apply get_anime_unbounded.
Qed.

(** *** The user's list *)

(** C2, as amended: on a status from 400 to 599 [get_userlist] returns no
    result. When the body is JSON it is printed, once, and [HTTPError] is
    raised; when it is not, decoding it raises before anything is printed. *)
Theorem get_userlist_http_error (username : string) (req : Client.Response Json) :
  post (UserQuery username "ANIME") = Some req →
  400 ≤ (Client.status_code req) < 600 →
  ¬ returns (get_userlist username)
  ∧ (∀ body, Client.json req = Some body →
       get_userlist username = ([str body], Raised (HTTPError (Client.status_code req))))
  ∧ (Client.json req = None → get_userlist username = ([], Raised JSONDecodeError)).
Proof.
  intros Hpost Hstatus.
  assert (H200 : (Client.status_code req =? 200) = false) by lia.
  assert (Hraise : Client.raise_for_status req = raise (HTTPError (Client.status_code req))).
  { unfold Client.raise_for_status.
    destruct (Z.leb_spec 400 (Client.status_code req)); [| lia].
    destruct (Z.ltb_spec (Client.status_code req) 600); [done | lia]. }
  assert (Hbody : ∀ body, Client.json req = Some body →
    get_userlist username = ([str body], Raised (HTTPError (Client.status_code req)))).
  { intros body Hjson. unfold Client.get_userlist, Client.requests_post, Client.Response_json.
    rewrite Hpost. simpl or_raise. rewrite Exec_bind_ret, H200. simpl negb. cbv iota.
    by rewrite Hjson, Hraise. }
  assert (Hnone : Client.json req = None → get_userlist username = ([], Raised JSONDecodeError)).
  { intros Hjson. unfold Client.get_userlist, Client.requests_post, Client.Response_json.
    rewrite Hpost. simpl or_raise. rewrite Exec_bind_ret, H200. simpl negb. cbv iota.
    by rewrite Hjson. }
  split; [| by split].
  intros [entries Hret].
  destruct (Client.json req) as [body |] eqn:Hjson.
  - by rewrite (Hbody body eq_refl) in Hret.
  - by rewrite (Hnone eq_refl) in Hret.
Qed.

(** *** The season summary *)

Lemma summary_groups_print (groups : list (option string * list Media)) :
  for_ groups (λ '(format, format_medias),
    print (Client.sub_header format);;
    for_ (sorted Media (λ a b, Date.__lt__ (startDate a) (startDate b)) format_medias)
         (λ media, print (Client.checklist_line media)))
  = (concat ((λ g, Client.sub_header g.1
                   :: (Client.checklist_line
                       <$> sorted Media
                             (λ a b, Date.__lt__ (startDate a) (startDate b)) g.2))
             <$> groups),
     Returned tt).
Proof.
  apply for_prints. intros [fmt ms].
  by rewrite Exec_bind_print, for_print_each.
Qed.

(** C10: the sub-header of a format group is the group's label, the format
    or "Unknown", with every underscore replaced by a space, between its
    fixed frame; the checklist lines are printed as they are built, the
    title unchanged. [md_summary] prints the header, then for each group its
    sub-header and the checklist lines of its media. *)
Theorem md_summary_sub_header :
  (∀ format, Client.sub_header format
             = nl +:+ "### " +:+ replace "_" " " (or_else format "Unknown") +:+ nl)
  ∧ (∀ c s, or_else (Some (String c s)) "Unknown" = String c s)
  ∧ (∀ s n, String.get n (replace "_" " " s)
            = (λ c, if decide (c = "_"%char) then " "%char else c) <$> String.get n s)
  ∧ Client.sub_header (Some "TV_SHORT") = nl +:+ "### TV SHORT" +:+ nl
  ∧ (∀ m, Client.checklist_line m
          = "- [ ] [{AL}](https://anilist.co/anime/" +:+ pretty (Media_id m) +:+ ") "
            +:+ userPreferred (title m))
  ∧ (∀ fuel year season medias,
       let ys := get_season now year season in
       get_anime fuel ys.2 ys.1 1 = mret medias →
       md_summary fuel year season
       = (Client.summary_header ys.1 ys.2
          :: concat ((λ g, Client.sub_header g.1
                           :: (Client.checklist_line
                               <$> sorted Media
                                     (λ a b, Date.__lt__ (startDate a) (startDate b)) g.2))
                     <$> groupby format medias),
          Returned tt)).
Proof.
  split; [| split; [| split; [| split; [| split]]]]; try done.
  - intros format. unfold Client.sub_header. by rewrite !replace_app.
  - intros s n. apply replace_get.
  - intros fuel year season medias ys Hget.
    unfold Client.md_summary. subst ys.
    destruct (get_season now year season) as [y s]. cbn [fst snd] in Hget |- *.
    rewrite Hget, Exec_bind_ret, Exec_bind_print.
    by rewrite summary_groups_print.
Qed.

End ClientProperties.

(** * The properties at the sample world *)

Lemma Date_lt_missing_first_witness :
  let no_year := {| year := None; month := Some 4; day := Some 1 |} in
  let no_month := {| year := Some 2025; month := None; day := Some 1 |} in
  let no_day := {| year := Some 2025; month := Some 4; day := None |} in
  let full := full_date 2025 4 1 in
  (Date_lt no_year full ∧ ¬ Date_lt full no_year)
  ∧ Date_lt no_month full
  ∧ Date_lt no_day full.
Proof.
  intros no_year no_month no_day full. split; [| split].
  - apply (proj1 (Date_lt_missing_first no_year full)); [reflexivity | by eexists].
  - apply (proj1 (proj2 (Date_lt_missing_first no_month full)));
      [by eexists | reflexivity | reflexivity | by eexists].
  - apply (proj2 (proj2 (Date_lt_missing_first no_day full)));
      [by eexists | reflexivity | by eexists | reflexivity | reflexivity | by eexists].
Defined.

Lemma Date_lt_not_strict_witness :
  Date_lt {| year := None; month := Some 4; day := Some 1 |}
          {| year := None; month := Some 4; day := Some 1 |}
  ∧ Date_lt {| year := Some 2025; month := None; day := Some 1 |}
            {| year := Some 2025; month := None; day := Some 1 |}.
Proof.
  split.
  - apply (proj1 Date_lt_not_strict). reflexivity.
  - apply (proj1 (proj2 Date_lt_not_strict)); [by eexists | reflexivity].
Defined.

Lemma filter_medias_excluded_witness :
  filter_medias (media Sample.page1) = [Sample.m1; Sample.m3]
  ∧ filter_medias (media Sample.page2) = [Sample.m5].
Proof.
  split.
  - rewrite (proj1 (filter_medias_excluded _)). vm_compute. reflexivity.
  - rewrite (proj1 (filter_medias_excluded _)). vm_compute. reflexivity.
Defined.

Lemma get_season_inference_witness :
  get_season {| datetime_year := 2024; datetime_month := 12; datetime_day := 24 |} None None
  = (2025, WINTER)
  ∧ get_season {| datetime_year := 2025; datetime_month := 1; datetime_day := 2 |} None None
    = (2025, WINTER)
  ∧ get_season {| datetime_year := 2025; datetime_month := 4; datetime_day := 2 |} None None
    = (2025, SPRING)
  ∧ get_season {| datetime_year := 2025; datetime_month := 7; datetime_day := 2 |} None None
    = (2025, SUMMER)
  ∧ get_season {| datetime_year := 2025; datetime_month := 10; datetime_day := 2 |} None None
    = (2025, FALL).
Proof.
  split; [| split; [| split; [| split]]].
  - exact (proj1 (get_season_inference
             {| datetime_year := 2024; datetime_month := 12; datetime_day := 24 |}) eq_refl).
  - exact (proj1 (proj2 (get_season_inference
             {| datetime_year := 2025; datetime_month := 1; datetime_day := 2 |})) eq_refl).
  - apply (proj1 (proj2 (proj2 (get_season_inference
             {| datetime_year := 2025; datetime_month := 4; datetime_day := 2 |})))).
    simpl. lia.
  - apply (proj1 (proj2 (proj2 (proj2 (get_season_inference
             {| datetime_year := 2025; datetime_month := 7; datetime_day := 2 |}))))).
    simpl. lia.
  - apply (proj1 (proj2 (proj2 (proj2 (proj2 (get_season_inference
             {| datetime_year := 2025; datetime_month := 10; datetime_day := 2 |})))))).
    simpl. lia.
Defined.

Lemma watched_remaining_partition_witness :
  let medias := [Sample.m1; Sample.m3; Sample.m5] in
  let user_list := [Sample.entry 70 3; Sample.entry 71 9] in
  (watched_remaining medias user_list).1 = [Sample.m3]
  ∧ (watched_remaining medias user_list).2 = [Sample.m1; Sample.m5].
Proof.
  intros medias user_list. split.
  - rewrite (proj1 (watched_remaining_partition medias user_list)).
    vm_compute. reflexivity.
  - rewrite (proj1 (proj2 (watched_remaining_partition medias user_list))).
    vm_compute. reflexivity.
Defined.

Lemma get_anime_concatenates_witness :
  Client.served Sample.json Sample.getitem Sample.AnimePage_model_validate Sample.post
    WINTER 2025 1 [Sample.page1; Sample.page2]
  ∧ Client.get_anime Sample.json Sample.getitem Sample.AnimePage_model_validate Sample.post
      2 WINTER 2025 1
    = mret [Sample.m1; Sample.m3; Sample.m5].
Proof.
  assert (Hs : Client.served Sample.json Sample.getitem Sample.AnimePage_model_validate
                 Sample.post WINTER 2025 1 [Sample.page1; Sample.page2]).
  { intros [| [| i]] p Hp; simplify_eq/=; by split. }
  split; [exact Hs |].
  rewrite (proj1 (get_anime_concatenates Sample.json Sample.getitem
                    Sample.AnimePage_model_validate Sample.post WINTER 2025)
                 [Sample.page1; Sample.page2]); [| done | exact Hs | done].
  vm_compute. reflexivity.
Defined.

Lemma get_anime_terminates_witness :
  (∃ medias, ∀ fuel, (1 < fuel)%nat →
     Client.get_anime Sample.json Sample.getitem Sample.AnimePage_model_validate Sample.post
       fuel WINTER 2025 1 = mret medias)
  ∧ (∀ fuel,
       Client.get_anime Sample.json Sample.getitem Sample.AnimePage_model_validate
         Sample.post_endless fuel WINTER 2025 1 = out_of_fuel).
Proof.
  split.
  - apply (proj1 (get_anime_terminates Sample.json Sample.getitem
                    Sample.AnimePage_model_validate Sample.post WINTER 2025) 1%nat).
    + intros [| [| k]] Hk; [by eexists | by eexists | lia].
    + by exists Sample.page2.
  - apply (proj2 (get_anime_terminates Sample.json Sample.getitem
                    Sample.AnimePage_model_validate Sample.post_endless WINTER 2025)).
    intros k. by exists Sample.page1.
Defined.

Lemma get_userlist_http_error_witness :
  Sample.post_not_found (UserQuery "alice" "ANIME") = Some Sample.not_found
  ∧ 400 ≤ (Client.status_code Sample.not_found) < 600
  ∧ Client.get_userlist Sample.json Sample.str Sample.getitem
      Sample.MediaListCollection_model_validate Sample.post_not_found "alice"
    = (["{'errors': 'User not found'}"], Raised (HTTPError 404)).
Proof.
  split; [reflexivity | split; [simpl; lia |]].
  apply (proj1 (proj2 (get_userlist_http_error Sample.json Sample.str Sample.getitem
                         Sample.MediaListCollection_model_validate Sample.post_not_found
                         "alice" Sample.not_found eq_refl ltac:(simpl; lia)))
               (Sample.JObject "errors" (Sample.JString "User not found"))).
  reflexivity.
Defined.

(** C2, as stated, fails: the status 300 is not a 2xx status, and on it
    [get_userlist] prints the body and returns the entries of the list. *)
Lemma get_userlist_returns_on_300 :
  Sample.post_multiple_choices (UserQuery "alice" "ANIME") = Some Sample.multiple_choices
  ∧ is_2xx (Client.status_code Sample.multiple_choices) = false
  ∧ Client.get_userlist Sample.json Sample.str Sample.getitem
      Sample.MediaListCollection_model_validate Sample.post_multiple_choices "alice"
    = (["{'data': {'MediaListCollection': {'lists': ...}}}"],
       Returned [Sample.entry 70 3; Sample.entry 71 9]).
Proof. repeat split. Qed.

Lemma md_summary_sub_header_witness :
  Client.md_summary Sample.json Sample.getitem Sample.AnimePage_model_validate
    Sample.sorted Sample.post Sample.now 2 None None
  = (["# Saisonniers hivers 2025";
      nl +:+ "### TV" +:+ nl;
      "- [ ] [{AL}](https://anilist.co/anime/1) Sousou_no Frieren";
      nl +:+ "### TV SHORT" +:+ nl;
      "- [ ] [{AL}](https://anilist.co/anime/3) Mijikai";
      nl +:+ "### Unknown" +:+ nl;
      "- [ ] [{AL}](https://anilist.co/anime/5) Nazo"],
     Returned tt).
Proof.
  rewrite (proj2 (proj2 (proj2 (proj2 (proj2
             (md_summary_sub_header Sample.json Sample.getitem
                Sample.AnimePage_model_validate Sample.sorted Sample.post Sample.now)))))
           2%nat None None [Sample.m1; Sample.m3; Sample.m5]).
  - vm_compute. reflexivity.
  - vm_compute. reflexivity.
Defined.

(** * Further properties of the code *)

(** ** The date ordering, continued *)

(** X1: Any two dates are comparable: one is below the other, or [__eq__] holds. *)
Theorem Date_lt_comparable (A B : Date) :
  Date_lt A B ∨ Date_lt B A ∨ Date.__eq__ A B = true.
Proof.
  unfold Date_lt, Date.__lt__, Date.__eq__.
  destruct A as [[y1 |] [m1 |] [d1 |]], B as [[y2 |] [m2 |] [d2 |]]; simpl;
    repeat match goal with
    | |- context [?a <? ?b] => destruct (Z.ltb_spec a b)
    end; auto;
    right; right; apply bool_decide_eq_true; repeat f_equal; lia.
Qed.

(** X2: Full dates whose years and months are ordered in opposite ways are each
    below the other, although no full date is below itself: on full dates
    the comparison is neither asymmetric nor transitive. *)
Theorem Date_lt_cycle (y1 m1 d1 y2 m2 d2 : Z) :
  y1 < y2 → m2 < m1 →
  let A := full_date y1 m1 d1 in
  let B := full_date y2 m2 d2 in
  Date_lt A B ∧ Date_lt B A ∧ ¬ Date_lt A A ∧ ¬ Date_lt B B.
Proof.
  intros Hy Hm A B. unfold Date_lt, A, B. rewrite !Date_lt_full.
  repeat split; auto; lia.
Qed.

(** X3: On full dates the comparison contains the tuple order, and it puts A
    below B without the tuple order doing so exactly when A has the later
    year and an earlier month or day, or the same year, a later month and an
    earlier day. *)
Theorem Date_lt_differs (y1 m1 d1 y2 m2 d2 : Z) :
  (tuple_lt (y1, m1, d1) (y2, m2, d2) → Date_lt (full_date y1 m1 d1) (full_date y2 m2 d2))
  ∧ (Date_lt (full_date y1 m1 d1) (full_date y2 m2 d2) ∧ ¬ tuple_lt (y1, m1, d1) (y2, m2, d2)
     ↔ (y2 < y1 ∧ (m1 < m2 ∨ d1 < d2)) ∨ (y1 = y2 ∧ m2 < m1 ∧ d1 < d2)).
Proof.
  unfold Date_lt. rewrite Date_lt_full. simpl. lia.
Qed.

(** ** The per-media filter, continued *)

(** X4: The filter of a concatenation is the concatenation of the filters, so
    how the media are cut into pages does not change what is kept; and
    filtering twice keeps what filtering once keeps. *)
Theorem filter_medias_app (l1 l2 : list Media) :
  filter_medias (l1 ++ l2) = filter_medias l1 ++ filter_medias l2
  ∧ filter_medias (filter_medias l1) = filter_medias l1.
Proof.
  unfold filter_medias. rewrite !fold_filter_step. simpl. split.
  - apply filter_app.
  - induction l1 as [| m l1 IH]; [done |].
    rewrite filter_cons. destruct (decide (¬ excluded m)) as [Hm | Hm]; [| done].
    rewrite filter_cons, decide_True by done. by rewrite IH.
Qed.

(** ** The watched/remaining split, continued *)

(** X5: The split reads the user's list only through the set of its media ids:
    order, duplicates, status, progress and score change nothing. *)
Theorem watched_remaining_ids (medias : list Media) (user_list user_list' : list MediaEntry) :
  (∀ i, i ∈ (mediaId <$> user_list) ↔ i ∈ (mediaId <$> user_list')) →
  watched_remaining medias user_list = watched_remaining medias user_list'.
Proof.
  intros Hids. unfold watched_remaining.
  replace (user_media_ids user_list') with (user_media_ids user_list); [done |].
  apply set_eq. intros i. by rewrite !elem_of_user_media_ids.
Qed.

(** X6: With an empty list nothing is watched and everything remains; when
    every media is in the list everything is watched. *)
Theorem watched_remaining_all (medias : list Media) (user_list : list MediaEntry) :
  watched_remaining medias [] = ([], medias)
  ∧ ((∀ m, m ∈ medias → Media_id m ∈ (mediaId <$> user_list)) →
     watched_remaining medias user_list = (medias, [])).
Proof.
  unfold watched_remaining. rewrite !fold_progress_step. simpl. split.
  - f_equal.
    + induction medias as [| m medias IH]; [done |].
      rewrite filter_cons, decide_False; [done |].
      rewrite elem_of_user_media_ids. simpl. by intros ?%elem_of_nil.
    + induction medias as [| m medias IH]; [done |].
      rewrite filter_cons, decide_True; [by rewrite IH |].
      rewrite elem_of_user_media_ids. simpl. by intros ?%elem_of_nil.
  - intros Hall. f_equal.
    + induction medias as [| m medias IH]; [done |].
      rewrite filter_cons, decide_True.
      * rewrite IH; [done |]. intros m' Hm'. apply Hall. by right.
      * apply elem_of_user_media_ids, Hall. by left.
    + induction medias as [| m medias IH]; [done |].
      rewrite filter_cons, decide_False.
      * apply IH. intros m' Hm'. apply Hall. by right.
      * intros Hn. apply Hn, elem_of_user_media_ids, Hall. by left.
Qed.

(** ** Computations, continued *)

Lemma Exec_bind_returned {A B} (out : list string) (a : A) (f : A → Exec B) :
  (out, Returned a) ≫= f = (out ++ (f a).1, (f a).2).
Proof. reflexivity. Qed.

(** ** Grouping *)

Lemma dict_append_keys {K A} `{EqDecision K} (d : list (K * list A)) (k : K) (x : A) :
  (dict_append d k x).*1 = if decide (k ∈ d.*1) then d.*1 else d.*1 ++ [k].
Proof.
  induction d as [| [k' xs] d IH]; cbn [dict_append].
  - by destruct (decide (k ∈ _)) as [?%elem_of_nil |].
  - destruct (decide (k = k')) as [-> | Hne]; rewrite !fmap_cons; cbn [fst].
    + rewrite decide_True; [done | by left].
    + rewrite IH. destruct (decide (k ∈ d.*1)) as [Hin | Hin].
      * rewrite decide_True; [done | by right].
      * rewrite decide_False; [done |]. by intros [? | ?]%elem_of_cons.
Qed.

Lemma dict_append_values {K A} `{EqDecision K} (d : list (K * list A)) (k : K) (x : A) :
  concat (dict_append d k x).*2 ≡ₚ x :: concat d.*2.
Proof.
  induction d as [| [k' xs] d IH]; cbn [dict_append]; [done |].
  destruct (decide (k = k')) as [-> | Hne]; rewrite !fmap_cons; cbn [snd concat].
  - rewrite <- app_assoc. cbn [app]. by rewrite <- Permutation_middle.
  - rewrite IH. by rewrite <- Permutation_middle.
Qed.

(** What a key's group holds after one more item. *)
Lemma dict_append_lookup {K A} `{EqDecision K} (d : list (K * list A)) (k k' : K)
    (x : A) (xs' : list A) :
  NoDup d.*1 →
  (k', xs') ∈ dict_append d k x
  ↔ (k' ≠ k ∧ (k', xs') ∈ d)
    ∨ (k' = k ∧ ((∃ xs, (k, xs) ∈ d ∧ xs' = xs ++ [x]) ∨ ((k ∉ d.*1) ∧ xs' = [x]))).
Proof.
  induction d as [| [k0 xs0] d IH]; cbn [dict_append]; intros Hnd.
  - rewrite list_elem_of_singleton. split.
    + intros [= -> ->]. right. split; [done |]. right. split; [apply not_elem_of_nil | done].
    + intros [[_ Hin] | [-> [(xs & Hin & _) | [_ ->]]]]; [| | done].
      * by apply elem_of_nil in Hin.
      * by apply elem_of_nil in Hin.
  - rewrite fmap_cons in Hnd |- *. cbn [fst] in Hnd |- *.
    apply NoDup_cons in Hnd as [Hk0 Hnd].
    assert (Hfresh : ∀ ys, (k0, ys) ∉ d).
    { intros ys Hin. apply Hk0. apply list_elem_of_fmap. by exists (k0, ys). }
    destruct (decide (k = k0)) as [-> | Hne].
    + rewrite !elem_of_cons. split.
      * intros [[= -> ->] | Hin].
        -- right. split; [done |]. left. exists xs0. split; [by left | done].
        -- left. split; [| by right]. intros ->. by eapply Hfresh.
      * intros [[Hne [[= ? ?] | Hin]] | [-> [(xs & Hin & ->) | [Hnot _]]]].
        -- done.
        -- by right.
        -- apply elem_of_cons in Hin as [[= ->] | Hin]; [by left |].
           exfalso. by eapply Hfresh.
        -- exfalso. apply Hnot. by left.
    + rewrite !elem_of_cons, (IH Hnd). split.
      * intros [[= -> ->] | [[Hk Hin] | [-> H1]]].
        -- left. split; [done | by left].
        -- left. split; [done | by right].
        -- right. split; [done |]. destruct H1 as [(xs & Hin & ->) | [Hnot ->]].
           ++ left. exists xs. split; [by right | done].
           ++ right. split; [| done]. by intros [? | ?].
      * intros [[Hk [[= -> ->] | Hin]] | [-> H1]].
        -- by left.
        -- right. left. done.
        -- right. right. split; [done |]. destruct H1 as [(xs & Hin & ->) | [Hnot ->]].
           ++ left. apply elem_of_cons in Hin as [[= ? ?] | Hin]; [done |]. by exists xs.
           ++ right. split; [| done]. intros Hin. apply Hnot. by right.
Qed.

Lemma groupby_snoc {K A} `{EqDecision K} (key : A → K) (seq : list A) (x : A) :
  groupby key (seq ++ [x]) = dict_append (groupby key seq) (key x) x.
Proof. unfold groupby. by rewrite fold_left_app. Qed.

Lemma groupby_keys_NoDup {K A} `{EqDecision K} (key : A → K) (seq : list A) :
  NoDup (groupby key seq).*1.
Proof.
  induction seq as [| x seq IH] using rev_ind; [constructor |].
  rewrite groupby_snoc, dict_append_keys.
  destruct (decide (key x ∈ (groupby key seq).*1)); [done |].
  apply NoDup_app. split; [done |]. split; [| apply NoDup_singleton].
  intros k Hk ->%list_elem_of_singleton. done.
Qed.

Lemma groupby_keys {K A} `{EqDecision K} (key : A → K) (seq : list A) (k : K) :
  k ∈ (groupby key seq).*1 ↔ ∃ x, x ∈ seq ∧ key x = k.
Proof.
  induction seq as [| x seq IH] using rev_ind.
  - split; [by intros ?%elem_of_nil | by intros (? & ?%elem_of_nil & _)].
  - rewrite groupby_snoc, dict_append_keys.
    assert (Hstep : k ∈ (groupby key seq).*1 ∨ k = key x ↔ ∃ y, y ∈ seq ++ [x] ∧ key y = k).
    { rewrite IH. split.
      - intros [(y & Hy & <-) | ->].
        + exists y. split; [| done]. apply elem_of_app. by left.
        + exists x. split; [| done]. apply elem_of_app. right. by left.
      - intros (y & [Hy | ->%list_elem_of_singleton]%elem_of_app & <-); [| by right].
        left. by exists y. }
    rewrite <- Hstep. destruct (decide (key x ∈ (groupby key seq).*1)) as [Hin | Hin].
    + split; [by left |]. by intros [? | ->].
    + rewrite elem_of_app, list_elem_of_singleton. done.
Qed.

Lemma groupby_values {K A} `{EqDecision K} (key : A → K) (seq : list A) :
  concat (groupby key seq).*2 ≡ₚ seq.
Proof.
  induction seq as [| x seq IH] using rev_ind; [done |].
  rewrite groupby_snoc, dict_append_values, IH. apply Permutation_cons_append.
Qed.

(** X7: [toolz.groupby] as [md_summary] uses it: the keys are the formats of the
    media, each once; a key's group is the media of that format, in the
    order they were fetched, and is never empty. *)
Theorem groupby_groups {K A} `{EqDecision K} (key : A → K) (seq : list A) :
  NoDup (groupby key seq).*1
  ∧ (∀ k, k ∈ (groupby key seq).*1 ↔ ∃ x, x ∈ seq ∧ key x = k)
  ∧ (∀ k xs, (k, xs) ∈ groupby key seq → xs = filter (λ x, key x = k) seq ∧ xs ≠ []).
Proof.
  split; [apply groupby_keys_NoDup | split; [apply groupby_keys |]].
  induction seq as [| x seq IH] using rev_ind; [by intros k xs ?%elem_of_nil |].
  intros k xs Hin. rewrite groupby_snoc in Hin.
  apply dict_append_lookup in Hin; [| apply groupby_keys_NoDup].
  rewrite filter_app, filter_cons, filter_nil.
  destruct Hin as [[Hne Hin] | [-> [(xs0 & Hin & ->) | [Hnot ->]]]].
  - destruct (IH k xs Hin) as [-> Hnil].
    rewrite decide_False by done. by rewrite app_nil_r.
  - destruct (IH (key x) xs0 Hin) as [-> Hnil].
    rewrite decide_True by done. split; [done |]. by intros [? ?]%app_eq_nil.
  - rewrite decide_True by done. split; [| done].
    destruct (filter (λ y, key y = key x) seq) as [| y ys] eqn:Hfilter; [done |].
    exfalso. assert (Hy : y ∈ filter (λ y, key y = key x) seq) by (rewrite Hfilter; left).
    apply list_elem_of_filter in Hy as [Hk Hy].
    apply Hnot, groupby_keys. by exists y.
Qed.

Lemma filter_medias_Forall (l : list Media) :
  Forall (λ m, ¬ excluded m) (filter_medias l).
Proof.
  unfold filter_medias. rewrite fold_filter_step. simpl.
  apply Forall_forall. by intros m [H _]%list_elem_of_filter.
Qed.

Section ClientBehaviour.

Variable Json : Type.
Variable str : Json → string.
Variable getitem : Json → string → option Json.
Variable AnimePage_model_validate : Json → option AnimePage.
Variable MediaListCollection_model_validate : Json → option MediaListCollection.
Variable sorted : ∀ A : Type, (A → A → bool) → list A → list A.
Variable post : Request → option (Client.Response Json).
Variable now : datetime.

Abbreviation fetch_page := (Client.fetch_page Json getitem AnimePage_model_validate post).
Abbreviation get_anime := (Client.get_anime Json getitem AnimePage_model_validate post).
Abbreviation get_userlist :=
  (Client.get_userlist Json str getitem MediaListCollection_model_validate post).
Abbreviation md_summary :=
  (Client.md_summary Json getitem AnimePage_model_validate sorted post now).
Abbreviation user_progress :=
  (Client.user_progress Json str getitem AnimePage_model_validate
     MediaListCollection_model_validate post now).

(** *** Pagination, continued *)

Lemma fetch_page_cases (season : MediaSeason) (year page : Z) :
  (∃ p, fetch_page season year page = mret p)
  ∨ (∃ e, fetch_page season year page = raise e).
Proof.
  unfold Client.fetch_page, Client.requests_post, Client.Response_json, Client.subscript.
  destruct (post _) as [resp |]; [| right; by eexists].
  cbn [or_raise]. rewrite Exec_bind_ret.
  destruct (Client.json resp) as [body |]; [| right; by eexists].
  cbn [or_raise]. rewrite Exec_bind_ret.
  destruct (getitem body "data") as [data |]; [| right; by eexists].
  cbn [or_raise]. rewrite Exec_bind_ret.
  destruct (getitem data "Page") as [Page |]; [| right; by eexists].
  cbn [or_raise]. rewrite Exec_bind_ret.
  destruct (AnimePage_model_validate Page) as [p |]; [left | right]; by eexists.
Qed.

Lemma get_anime_cases (fuel : nat) :
  ∀ season year page,
    (∃ medias, get_anime fuel season year page = mret medias)
    ∨ (∃ e, get_anime fuel season year page = raise e)
    ∨ get_anime fuel season year page = out_of_fuel.
Proof.
  induction fuel as [| fuel IH]; intros season year page; [by right; right |].
  simpl. destruct (fetch_page_cases season year page) as [[p Hp] | [e He]].
  - rewrite Hp, Exec_bind_ret. destruct (hasNextPage (pageInfo p)).
    + destruct (IH season year (page + 1)) as [[rest Hr] | [[e He] | Ho]].
      * rewrite Hr, Exec_bind_ret. left. by eexists.
      * rewrite He. right. left. by eexists.
      * rewrite Ho. by right; right.
    + left. by eexists.
  - rewrite He. right. left. by eexists.
Qed.

(** X8: [get_anime] writes nothing to standard output, whatever the API answers
    and however the call ends. *)
Theorem get_anime_prints_nothing (fuel : nat) (season : MediaSeason) (year page : Z) :
  (get_anime fuel season year page).1 = [].
Proof.
  destruct (get_anime_cases fuel season year page) as [[l H] | [[e H] | H]];
    by rewrite H.
Qed.

(** X9: Whatever the API serves, no media of the list [get_anime] returns is a
    movie, an OVA, a special or a music video, adult, or linked to a prequel
    or sequel. *)
Theorem get_anime_never_excluded (fuel : nat) (season : MediaSeason) (year page : Z)
    (medias : list Media) :
  get_anime fuel season year page = mret medias →
  Forall (λ m, ¬ excluded m) medias.
Proof.
  revert page medias. induction fuel as [| fuel IH]; intros page medias; [done |].
  simpl. destruct (fetch_page_cases season year page) as [[p Hp] | [e He]].
  - rewrite Hp, Exec_bind_ret. destruct (hasNextPage (pageInfo p)).
    + destruct (get_anime_cases fuel season year (page + 1)) as [[rest Hr] | [[e He] | Ho]].
      * rewrite Hr, Exec_bind_ret. intros [= <-].
        apply Forall_app. split; [apply filter_medias_Forall | by eapply IH].
      * by rewrite He.
      * by rewrite Ho.
    + intros [= <-]. apply filter_medias_Forall.
  - by rewrite He.
Qed.

(** X10: The season fetch never looks at the HTTP status: two APIs whose answers
    have the same bodies give the same result. *)
Theorem get_anime_ignores_status (post' : Request → option (Client.Response Json)) :
  (∀ data, Client.json <$> post data = Client.json <$> post' data) →
  ∀ fuel season year page,
    get_anime fuel season year page
    = Client.get_anime Json getitem AnimePage_model_validate post' fuel season year page.
Proof.
  intros Hbody.
  assert (Hfetch : ∀ season year page,
    fetch_page season year page
    = Client.fetch_page Json getitem AnimePage_model_validate post' season year page).
  { intros season year page.
    unfold Client.fetch_page, Client.requests_post, Client.Response_json.
    specialize (Hbody (SeasonQuery page (MediaSeason_name season) year)).
    destruct (post _) as [resp |], (post' _) as [resp' |];
      try discriminate Hbody; [| done].
    injection Hbody as Hbody.
    cbn [or_raise]. rewrite !Exec_bind_ret. by rewrite Hbody. }
  induction fuel as [| fuel IH]; intros season year page; [done |].
  simpl. rewrite <- Hfetch.
  destruct (fetch_page_cases season year page) as [[p Hp] | [e He]].
  - rewrite Hp, !Exec_bind_ret. destruct (hasNextPage (pageInfo p)); [| done].
    by rewrite IH.
  - by rewrite He.
Qed.

(** X11: A failure on a later page fails the whole call: the media of the pages
    before it are not returned. *)
Theorem get_anime_fails_whole (n : nat) :
  ∀ (season : MediaSeason) (year page : Z) (e : exn),
    (∀ k : nat, (k < n)%nat →
       ∃ p, fetch_page season year (page + Z.of_nat k) = mret p
            ∧ hasNextPage (pageInfo p) = true) →
    fetch_page season year (page + Z.of_nat n) = raise e →
    ∀ fuel, (n < fuel)%nat → get_anime fuel season year page = raise e.
Proof.
  induction n as [| n IH]; intros season year page e Hbefore Hfail fuel Hfuel;
    (destruct fuel as [| fuel]; [lia |]); simpl.
  - rewrite Z.add_0_r in Hfail. by rewrite Hfail.
  - destruct (Hbefore 0%nat ltac:(lia)) as (p & Hp & Hnext). rewrite Z.add_0_r in Hp.
    rewrite Hp, Exec_bind_ret, Hnext.
    rewrite (IH season year (page + 1) e); [done | | | lia].
    + intros k Hk. destruct (Hbefore (S k) ltac:(lia)) as (q & Hq & Hqn).
      exists q. split; [| done]. rewrite <- Hq. f_equal. lia.
    + rewrite <- Hfail. f_equal. lia.
Qed.

(** X12: Pages after the one that reports no next page are never asked for: an
    API that answers the pages up to the last in the same way gives the same
    result, whatever it would answer afterwards. *)
Theorem get_anime_stops_at_last_page (post' : Request → option (Client.Response Json))
    (season : MediaSeason) (year page : Z) (pages : list AnimePage) :
  pages ≠ [] →
  Client.served Json getitem AnimePage_model_validate post season year page pages →
  (∀ i : nat, (i < length pages)%nat →
     post' (SeasonQuery (page + Z.of_nat i) (MediaSeason_name season) year)
     = post (SeasonQuery (page + Z.of_nat i) (MediaSeason_name season) year)) →
  ∀ fuel, (length pages ≤ fuel)%nat →
    Client.get_anime Json getitem AnimePage_model_validate post' fuel season year page
    = get_anime fuel season year page.
Proof.
  intros Hne Hserved Hsame fuel Hfuel.
  rewrite (get_anime_served Json getitem AnimePage_model_validate post pages
             fuel season year page Hne Hserved Hfuel).
  apply get_anime_served; [done | | done].
  intros i p Hp. destruct (Hserved i p Hp) as [Hfetch Hnext]. split; [| done].
  rewrite <- Hfetch. unfold Client.fetch_page, Client.requests_post.
  rewrite Hsame; [done |]. by eapply lookup_lt_Some.
Qed.

(** *** The user's list, continued *)

(** Lines 229-231 on a decoded body. *)
Lemma get_userlist_cases (username : string) :
  get_userlist username
  = match post (UserQuery username "ANIME") with
    | None => raise ConnectionError
    | Some req =>
      match Client.json req with
      | None => raise JSONDecodeError
      | Some body =>
        let decoded : Exec (list MediaEntry) :=
          match getitem body "data" with
          | None => raise KeyError_or_TypeError
          | Some data =>
            match getitem data "MediaListCollection" with
            | None => raise KeyError_or_TypeError
            | Some collection =>
              match MediaListCollection_model_validate collection with
              | None => raise ValidationError
              | Some user_list => mret (concat (entries <$> lists user_list))
              end
            end
          end in
        if Client.status_code req =? 200 then decoded
        else if (400 <=? Client.status_code req) && (Client.status_code req <? 600)
        then ([str body], Raised (HTTPError (Client.status_code req)))
        else (str body :: decoded.1, decoded.2)
      end
    end.
Proof.
  unfold Client.get_userlist, Client.requests_post, Client.Response_json,
    Client.subscript, Client.raise_for_status.
  destruct (post _) as [req |]; [| done].
  cbn [or_raise]. rewrite Exec_bind_ret.
  destruct (Client.json req) as [body |]; cbn [or_raise].
  - destruct (Client.status_code req =? 200); cbn [negb].
    + rewrite !Exec_bind_ret.
      destruct (getitem body "data") as [data |]; [| done].
      cbn [or_raise]. rewrite Exec_bind_ret.
      destruct (getitem data "MediaListCollection") as [collection |]; [| done].
      cbn [or_raise]. rewrite Exec_bind_ret.
      by destruct (MediaListCollection_model_validate collection).
    + rewrite !Exec_bind_ret.
      destruct ((400 <=? Client.status_code req) && (Client.status_code req <? 600));
        [done |].
      unfold mbind, Exec_bind. cbn [print mret Exec_ret fst snd app].
      destruct (getitem body "data") as [data |]; [| reflexivity].
      cbn [or_raise mret Exec_ret fst snd app].
      destruct (getitem data "MediaListCollection") as [collection |]; [| reflexivity].
      cbn [or_raise mret Exec_ret fst snd app].
      destruct (MediaListCollection_model_validate collection); reflexivity.
  - by destruct (Client.status_code req =? 200).
Qed.

(** X13: [get_userlist] returns a list exactly when the API answered, with a
    status outside 400-599, and the body is JSON that holds a collection
    under data.MediaListCollection; the list is then the entries of the
    collection's lists, one list after the other. *)
Theorem get_userlist_returns (username : string) (result : list MediaEntry) :
  (get_userlist username).2 = Returned result
  ↔ ∃ req body data collection user_list,
      post (UserQuery username "ANIME") = Some req
      ∧ ¬ (400 ≤ (Client.status_code req) < 600)
      ∧ Client.json req = Some body
      ∧ getitem body "data" = Some data
      ∧ getitem data "MediaListCollection" = Some collection
      ∧ MediaListCollection_model_validate collection = Some user_list
      ∧ result = concat (entries <$> lists user_list).
Proof.
  rewrite get_userlist_cases. split.
  - destruct (post _) as [req |] eqn:Hpost; [| done].
    destruct (Client.json req) as [body |] eqn:Hjson; [| done].
    intros H. cbv zeta in H.
    destruct (getitem body "data") as [data |] eqn:Hdata;
      [destruct (getitem data "MediaListCollection") as [collection |] eqn:Hcoll;
       [destruct (MediaListCollection_model_validate collection) as [user_list |] eqn:Hval |] |];
      destruct (Z.eqb_spec (Client.status_code req) 200),
        (Z.leb_spec 400 (Client.status_code req)),
        (Z.ltb_spec (Client.status_code req) 600);
      simpl in H; try done; try lia;
      injection H as <-; exists req, body, data, collection, user_list;
      repeat split; try done; lia.
  - intros (req & body & data & collection & user_list
            & -> & Hstatus & -> & -> & -> & -> & ->).
    cbv zeta. destruct (Z.eqb_spec (Client.status_code req) 200); [done |].
    destruct (Z.leb_spec 400 (Client.status_code req)),
      (Z.ltb_spec (Client.status_code req) 600); simpl; try done; lia.
Qed.

(** X14: [get_userlist] prints the body when the status is not 200 and the body
    is JSON, and nothing otherwise: never more than one line. *)
Theorem get_userlist_prints (username : string) :
  (get_userlist username).1
  = match post (UserQuery username "ANIME") with
    | Some req =>
      match Client.json req with
      | Some body => if Client.status_code req =? 200 then [] else [str body]
      | None => []
      end
    | None => []
    end.
Proof.
  rewrite get_userlist_cases.
  destruct (post _) as [req |]; [| done].
  destruct (Client.json req) as [body |]; [| done].
  cbv zeta.
  destruct (getitem body "data") as [data |];
    [destruct (getitem data "MediaListCollection") as [collection |];
     [destruct (MediaListCollection_model_validate collection) |] |];
    destruct (Client.status_code req =? 200); try done;
    by destruct ((400 <=? Client.status_code req) && (Client.status_code req <? 600)).
Qed.

(** *** The season summary, continued *)

Lemma md_summary_output (fuel : nat) (year : option Z) (season : option MediaSeason)
    (medias : list Media) :
  let ys := get_season now year season in
  get_anime fuel ys.2 ys.1 1 = mret medias →
  md_summary fuel year season
  = (Client.summary_header ys.1 ys.2
     :: concat ((λ g, Client.sub_header g.1
                      :: (Client.checklist_line
                          <$> sorted Media
                                (λ a b, Date.__lt__ (startDate a) (startDate b)) g.2))
                <$> groupby format medias),
     Returned tt).
Proof.
  intros ys Hget. unfold Client.md_summary. subst ys.
  destruct (get_season now year season) as [y s]. cbn [fst snd] in Hget |- *.
  rewrite Hget, Exec_bind_ret, Exec_bind_print.
  by rewrite summary_groups_print.
Qed.

Lemma summary_lines_Permutation (groups : list (option string * list Media)) :
  (∀ lt l, sorted Media lt l ≡ₚ l) →
  concat ((λ g, Client.sub_header g.1
                :: (Client.checklist_line
                    <$> sorted Media (λ a b, Date.__lt__ (startDate a) (startDate b)) g.2))
          <$> groups)
  ≡ₚ (Client.sub_header <$> groups.*1) ++ (Client.checklist_line <$> concat groups.*2).
Proof.
  intros Hsorted. induction groups as [| [fmt ms] groups IH]; [done |].
  rewrite !fmap_cons. cbn [concat fst snd app]. rewrite IH, Hsorted.
  f_equiv. rewrite fmap_app, !app_assoc. f_equiv. apply Permutation_app_comm.
Qed.

(** X15: When the season fetch does not return, nothing is printed, not even the
    header, and [md_summary] does not return either. *)
Theorem md_summary_needs_season (fuel : nat) (year : option Z) (season : option MediaSeason) :
  let ys := get_season now year season in
  ¬ returns (get_anime fuel ys.2 ys.1 1) →
  (md_summary fuel year season).1 = [] ∧ ¬ returns (md_summary fuel year season).
Proof.
  intros ys Hfail. unfold Client.md_summary. subst ys.
  destruct (get_season now year season) as [y s]. cbn [fst snd] in Hfail.
  destruct (get_anime_cases fuel s y 1) as [[medias H] | [[e H] | H]]; rewrite H in Hfail |- *.
  - exfalso. apply Hfail. by exists medias.
  - split; [done |]. by intros [? ?].
  - split; [done |]. by intros [? ?].
Qed.

(** X16: With a [sorted] that returns a permutation of its argument, as Python's
    does, the summary is the header followed by one sub-header for each
    format that occurs and one checklist line for each media, in some order. *)
Theorem md_summary_prints_each_once (fuel : nat) (year : option Z)
    (season : option MediaSeason) (medias : list Media) :
  (∀ lt l, sorted Media lt l ≡ₚ l) →
  let ys := get_season now year season in
  get_anime fuel ys.2 ys.1 1 = mret medias →
  ∃ lines formats,
    md_summary fuel year season = (Client.summary_header ys.1 ys.2 :: lines, Returned tt)
    ∧ NoDup formats
    ∧ (∀ f, f ∈ formats ↔ ∃ m, m ∈ medias ∧ format m = f)
    ∧ lines ≡ₚ (Client.sub_header <$> formats) ++ (Client.checklist_line <$> medias).
Proof.
  intros Hsorted ys Hget. eexists _, (groupby format medias).*1.
  split; [by apply md_summary_output |].
  split; [apply groupby_keys_NoDup |].
  split; [apply groupby_keys |].
  rewrite (summary_lines_Permutation _ Hsorted). by rewrite groupby_values.
Qed.

(** X17: The smallest summaries: without media only the header is printed; with
    one media the header, the sub-header of its format ("Unknown" when it has
    none) and its checklist line. *)
Theorem md_summary_small (fuel : nat) (year : option Z) (season : option MediaSeason) :
  (∀ lt l, sorted Media lt l ≡ₚ l) →
  let ys := get_season now year season in
  (get_anime fuel ys.2 ys.1 1 = mret [] →
   md_summary fuel year season = ([Client.summary_header ys.1 ys.2], Returned tt))
  ∧ (∀ m, get_anime fuel ys.2 ys.1 1 = mret [m] →
     md_summary fuel year season
     = ([Client.summary_header ys.1 ys.2; Client.sub_header (format m);
         Client.checklist_line m], Returned tt))
  ∧ Client.sub_header None = nl +:+ "### Unknown" +:+ nl.
Proof.
  intros Hsorted ys. split; [| split; [| done]].
  - intros Hget. by rewrite (md_summary_output _ _ _ _ Hget).
  - intros m Hget. rewrite (md_summary_output _ _ _ _ Hget).
    cbn [groupby fold_left dict_append fmap list_fmap concat fst snd app].
    by rewrite (proj1 (Permutation_singleton_r _ _) (Hsorted _ [m])).
Qed.

(** *** The user's progress *)

(** X18: What [user_progress] prints when both fetches return: what the list
    fetch printed, "Watched:" and the titles of the media in the user's list,
    then "Remaining:" and the titles and addresses of the others, each part
    in the season's order. *)
Theorem user_progress_output (fuel : nat) (username : string) (year : option Z)
    (season : option MediaSeason) (medias : list Media) (out : list string)
    (user_list : list MediaEntry) :
  let ys := get_season now year season in
  get_anime fuel ys.2 ys.1 1 = mret medias →
  get_userlist username = (out, Returned user_list) →
  user_progress fuel username year season
  = (out
     ++ ["Watched:"]
     ++ ((λ w, userPreferred (title w))
         <$> filter (λ m, Media_id m ∈ (mediaId <$> user_list)) medias)
     ++ [nl +:+ "Remaining:"]
     ++ ((λ r, userPreferred (title r) +:+ " https://anilist.co/anime/"
               +:+ pretty (Media_id r))
         <$> filter (λ m, Media_id m ∉ (mediaId <$> user_list)) medias),
     Returned tt).
Proof.
  intros ys Hget Hlist. unfold Client.user_progress. subst ys.
  destruct (get_season now year season) as [y s]. cbn [fst snd] in Hget.
  rewrite Hget, Exec_bind_ret, Hlist, Exec_bind_returned.
  unfold watched_remaining. rewrite fold_progress_step. cbn [app].
  rewrite (list_filter_iff (λ m, Media_id m ∈ user_media_ids user_list)
             (λ m, Media_id m ∈ (mediaId <$> user_list)))
    by (intros m; apply elem_of_user_media_ids).
  rewrite (list_filter_iff (λ m, Media_id m ∉ user_media_ids user_list)
             (λ m, Media_id m ∉ (mediaId <$> user_list)))
    by (intros m; by rewrite elem_of_user_media_ids).
  rewrite !for_print_each. reflexivity.
Qed.

(** X19: "Watched:" is printed only after both fetches returned. When the season
    fetch does not return, nothing at all is printed: the user's list is not
    asked for. When only the list fetch fails, what it printed is all. *)
Theorem user_progress_needs_both (fuel : nat) (username : string) (year : option Z)
    (season : option MediaSeason) :
  let ys := get_season now year season in
  (¬ returns (get_anime fuel ys.2 ys.1 1) →
   (user_progress fuel username year season).1 = []
   ∧ ¬ returns (user_progress fuel username year season))
  ∧ (returns (get_anime fuel ys.2 ys.1 1) →
     ¬ returns (get_userlist username) →
     (user_progress fuel username year season).1 = (get_userlist username).1
     ∧ ¬ returns (user_progress fuel username year season)).
Proof.
  intros ys. unfold Client.user_progress. subst ys.
  destruct (get_season now year season) as [y s]. cbn [fst snd].
  destruct (get_anime_cases fuel s y 1) as [[medias H] | [[e H] | H]]; rewrite H.
  - split; [intros Hfail; exfalso; apply Hfail; by exists medias |].
    intros _ Hlist. rewrite Exec_bind_ret.
    destruct (get_userlist username) as [out [user_list | e |]] eqn:Hu.
    + exfalso. apply Hlist. by exists user_list.
    + split; [done |]. by intros [? ?].
    + split; [done |]. by intros [? ?].
  - split; [| by intros [? ?]]. intros _. split; [done |]. by intros [? ?].
  - split; [| by intros [? ?]]. intros _. split; [done |]. by intros [? ?].
Qed.

End ClientBehaviour.

(** * The further properties at the sample worlds *)

Lemma Sample_insert_Permutation {A} (lt : A → A → bool) (x : A) (l : list A) :
  Sample.insert lt x l ≡ₚ x :: l.
Proof.
  induction l as [| y l IH]; [done |]. simpl.
  destruct (lt x y); [done |]. rewrite IH. apply Permutation_swap.
Qed.

Lemma Sample_sorted_Permutation {A} (lt : A → A → bool) (l : list A) :
  Sample.sorted A lt l ≡ₚ l.
Proof.
  unfold Sample.sorted. induction l as [| x l IH]; [done |].
  simpl. by rewrite Sample_insert_Permutation, IH.
Qed.

Lemma Date_lt_cycle_witness :
  2024 < 2025 ∧ 1 < 12
  ∧ Date_lt (full_date 2024 12 28) (full_date 2025 1 5)
  ∧ Date_lt (full_date 2025 1 5) (full_date 2024 12 28)
  ∧ ¬ Date_lt (full_date 2024 12 28) (full_date 2024 12 28)
  ∧ ¬ Date_lt (full_date 2025 1 5) (full_date 2025 1 5).
Proof.
  split; [lia | split; [lia |]].
  exact (Date_lt_cycle 2024 12 28 2025 1 5 ltac:(lia) ltac:(lia)).
Defined.

Lemma watched_remaining_ids_witness :
  let medias := [Sample.m1; Sample.m3; Sample.m5] in
  let user_list := [Sample.entry 70 3; Sample.entry 71 9] in
  let user_list' := [Sample.entry 1 9; Sample.entry 2 3; Sample.entry 3 3] in
  (∀ i, i ∈ (mediaId <$> user_list) ↔ i ∈ (mediaId <$> user_list'))
  ∧ watched_remaining medias user_list = watched_remaining medias user_list'.
Proof.
  intros medias user_list user_list'.
  assert (H : ∀ i, i ∈ (mediaId <$> user_list) ↔ i ∈ (mediaId <$> user_list')).
  { intros i. simpl. rewrite !elem_of_cons. tauto. }
  split; [exact H | exact (watched_remaining_ids medias user_list user_list' H)].
Defined.

Lemma get_anime_never_excluded_witness :
  Client.get_anime Sample.json Sample.getitem Sample.AnimePage_model_validate Sample.post
    2 WINTER 2025 1 = mret [Sample.m1; Sample.m3; Sample.m5]
  ∧ Forall (λ m, ¬ excluded m) [Sample.m1; Sample.m3; Sample.m5].
Proof.
  split; [reflexivity |].
  exact (get_anime_never_excluded Sample.json Sample.getitem Sample.AnimePage_model_validate
           Sample.post 2 WINTER 2025 1 _ eq_refl).
Defined.

Lemma get_anime_ignores_status_witness :
  (∀ data, Client.json <$> Sample.post data = Client.json <$> Cases.post_500 data)
  ∧ Client.get_anime Sample.json Sample.getitem Sample.AnimePage_model_validate
      Cases.post_500 2 WINTER 2025 1
    = mret [Sample.m1; Sample.m3; Sample.m5].
Proof.
  assert (H : ∀ data, Client.json <$> Sample.post data
                      = Client.json <$> Cases.post_500 data).
  { intros data. unfold Cases.post_500. by destruct (Sample.post data). }
  split; [exact H |].
  rewrite <- (get_anime_ignores_status Sample.json Sample.getitem
                Sample.AnimePage_model_validate Sample.post Cases.post_500 H).
  reflexivity.
Defined.

Lemma get_anime_fails_whole_witness :
  Client.fetch_page Sample.json Sample.getitem Sample.AnimePage_model_validate
    Cases.post_page2_down WINTER 2025 2 = raise ConnectionError
  ∧ (∀ fuel, (1 < fuel)%nat →
       Client.get_anime Sample.json Sample.getitem Sample.AnimePage_model_validate
         Cases.post_page2_down fuel WINTER 2025 1
       = raise ConnectionError).
Proof.
  split; [reflexivity |].
  apply (get_anime_fails_whole Sample.json Sample.getitem Sample.AnimePage_model_validate
           Cases.post_page2_down 1 WINTER 2025 1 ConnectionError).
  - intros [| k] Hk; [| lia]. by exists Sample.page1.
  - reflexivity.
Defined.

Lemma get_anime_stops_at_last_page_witness :
  Client.get_anime Sample.json Sample.getitem Sample.AnimePage_model_validate
    Cases.post_more_pages 5 WINTER 2025 1
  = Client.get_anime Sample.json Sample.getitem Sample.AnimePage_model_validate
      Sample.post 5 WINTER 2025 1.
Proof.
  apply (get_anime_stops_at_last_page Sample.json Sample.getitem
           Sample.AnimePage_model_validate Sample.post Cases.post_more_pages
           WINTER 2025 1 [Sample.page1; Sample.page2]).
  - done.
  - intros [| [| i]] p Hp; simplify_eq/=; by split.
  - intros [| [| i]] Hi; [reflexivity | reflexivity | simpl in Hi; lia].
  - simpl. lia.
Defined.

Lemma md_summary_needs_season_witness :
  ¬ returns (Client.get_anime Sample.json Sample.getitem Sample.AnimePage_model_validate
               Cases.post_page2_down 5 WINTER 2025 1)
  ∧ (Client.md_summary Sample.json Sample.getitem Sample.AnimePage_model_validate
       Sample.sorted Cases.post_page2_down Sample.now 5 None None).1 = []
  ∧ ¬ returns (Client.md_summary Sample.json Sample.getitem Sample.AnimePage_model_validate
                 Sample.sorted Cases.post_page2_down Sample.now 5 None None).
Proof.
  assert (H : ¬ returns (Client.get_anime Sample.json Sample.getitem
                           Sample.AnimePage_model_validate Cases.post_page2_down
                           5 WINTER 2025 1)).
  { intros [medias Hm]. vm_compute in Hm. discriminate Hm. }
  split; [exact H |].
  exact (md_summary_needs_season Sample.json Sample.getitem Sample.AnimePage_model_validate
           Sample.sorted Cases.post_page2_down Sample.now 5 None None H).
Defined.

Lemma md_summary_prints_each_once_witness :
  ∃ lines formats,
    Client.md_summary Sample.json Sample.getitem Sample.AnimePage_model_validate
      Sample.sorted Sample.post Sample.now 2 None None
    = (Client.summary_header 2025 WINTER :: lines, Returned tt)
    ∧ NoDup formats
    ∧ (∀ f, f ∈ formats ↔ ∃ m, m ∈ [Sample.m1; Sample.m3; Sample.m5] ∧ format m = f)
    ∧ lines ≡ₚ (Client.sub_header <$> formats)
               ++ (Client.checklist_line <$> [Sample.m1; Sample.m3; Sample.m5]).
Proof.
  exact (md_summary_prints_each_once Sample.json Sample.getitem
           Sample.AnimePage_model_validate Sample.sorted Sample.post Sample.now
           2 None None [Sample.m1; Sample.m3; Sample.m5]
           (@Sample_sorted_Permutation Media) eq_refl).
Defined.

Lemma md_summary_small_witness :
  Client.md_summary Sample.json Sample.getitem Sample.AnimePage_model_validate
    Sample.sorted Cases.post_single Sample.now 1 None None
  = (["# Saisonniers hivers 2025";
      nl +:+ "### Unknown" +:+ nl;
      "- [ ] [{AL}](https://anilist.co/anime/5) Nazo"],
     Returned tt).
Proof.
  exact (proj1 (proj2 (md_summary_small Sample.json Sample.getitem
                         Sample.AnimePage_model_validate Sample.sorted Cases.post_single
                         Sample.now 1 None None (@Sample_sorted_Permutation Media)))
               Sample.m5 eq_refl).
Defined.

Lemma user_progress_output_witness :
  Client.user_progress Sample.json Sample.str Sample.getitem Sample.AnimePage_model_validate
    Sample.MediaListCollection_model_validate Sample.post Sample.now 2 "alice" None None
  = (["Watched:"; "Mijikai"; nl +:+ "Remaining:";
      "Sousou_no Frieren https://anilist.co/anime/1";
      "Nazo https://anilist.co/anime/5"],
     Returned tt).
Proof.
  rewrite (user_progress_output Sample.json Sample.str Sample.getitem
             Sample.AnimePage_model_validate Sample.MediaListCollection_model_validate
             Sample.post Sample.now 2 "alice" None None
             [Sample.m1; Sample.m3; Sample.m5] []
             [Sample.entry 70 3; Sample.entry 71 9] eq_refl eq_refl).
  vm_compute. reflexivity.
Defined.

Lemma user_progress_needs_both_witness :
  (Client.user_progress Sample.json Sample.str Sample.getitem Sample.AnimePage_model_validate
     Sample.MediaListCollection_model_validate Cases.post_page2_down Sample.now 5 "alice"
     None None).1 = []
  ∧ (Client.user_progress Sample.json Sample.str Sample.getitem
       Sample.AnimePage_model_validate Sample.MediaListCollection_model_validate
       Cases.post_unknown_user Sample.now 2 "alice" None None).1
    = ["{'errors': 'User not found'}"].
Proof.
  split.
  - apply (proj1 (user_progress_needs_both Sample.json Sample.str Sample.getitem
                    Sample.AnimePage_model_validate Sample.MediaListCollection_model_validate
                    Cases.post_page2_down Sample.now 5 "alice" None None)).
    intros [medias Hm]. vm_compute in Hm. discriminate Hm.
  - assert (Hseason : returns (Client.get_anime Sample.json Sample.getitem
                                 Sample.AnimePage_model_validate Cases.post_unknown_user
                                 2 WINTER 2025 1)) by (by eexists).
    assert (Hlist : ¬ returns (Client.get_userlist Sample.json Sample.str Sample.getitem
                                 Sample.MediaListCollection_model_validate
                                 Cases.post_unknown_user "alice")).
    { intros [l Hl]. vm_compute in Hl. discriminate Hl. }
    rewrite (proj1 (proj2 (user_progress_needs_both Sample.json Sample.str Sample.getitem
                             Sample.AnimePage_model_validate
                             Sample.MediaListCollection_model_validate
                             Cases.post_unknown_user Sample.now 2 "alice" None None)
                          Hseason Hlist)).
    reflexivity.
Defined.
